(** * The rig monitoring agent ([agent.py]): one collect-and-send cycle

    A shallow embedding of [RigAgent] and of the part of the Python run
    time it relies on: JSON values and dictionaries, exceptions and
    [try]/[except], [sys.exit], the logger, binary64 floats with
    [round], and the answers of the operating system, the network and
    the collector to the calls the agent makes. *)

From Stdlib Require Import ZArith Zpower QArith Qround Qabs Qpower Lqa.
From Stdlib Require Import String Ascii List Lia.
From Stdlib Require Import Floats.SpecFloat.
From stdpp Require Import gmap strings pretty.

Set Warnings "-register-all".

Local Open Scope Z_scope.
Local Open Scope string_scope.

(** ** Values *)

(** A binary64 float, as [Floats.SpecFloat] specifies IEEE 754. *)
Abbreviation float := spec_float.

(** What a report or a parsed JSON document holds. *)
Inductive value :=
| VNone
| VBool (b : bool)
| VInt (z : Z)
| VFloat (f : float)
| VStr (s : string)
| VList (l : list value)
| VDict (m : gmap string value).

(** A Python [dict] with string keys. *)
Abbreviation dict := (gmap string value).

(** [d.update(m)], and each [**m] of a dict display: the entries of [m]
    are written over those [d] already holds. *)
Definition update (d m : dict) : dict := m ∪ d.

(** [d[k] = v], and each [k: v] of a dict display. *)
Definition setitem (d : dict) (k : string) (v : value) : dict := <[k:=v]> d.

(** The newline of the log messages. *)
Definition nl : string := String "010"%char EmptyString.

(** ** Exceptions *)

(** The exception classes that can reach the agent, all below
    [Exception]. *)
Inductive exn_class :=
| OSError
| FileNotFoundError
| PermissionError
| ValueError
| JSONDecodeError
| KeyError
| TypeError
| RuntimeError
| psutil_Error
| psutil_NoSuchProcess
| psutil_AccessDenied
| requests_RequestException
| requests_ConnectionError
| requests_Timeout
| requests_ConnectTimeout
| requests_ReadTimeout
| requests_InvalidJSONError.

#[global] Instance exn_class_eq_dec : EqDecision exn_class.
Proof. solve_decision. Defined.

(** A class with its ancestors below [Exception], as the libraries
    declare them: in [requests], [ConnectTimeout] derives from both
    [ConnectionError] and [Timeout], and [ReadTimeout] from [Timeout]. *)
Definition mro (c : exn_class) : list exn_class :=
  match c with
  | OSError => [OSError]
  | FileNotFoundError => [FileNotFoundError; OSError]
  | PermissionError => [PermissionError; OSError]
  | ValueError => [ValueError]
  | JSONDecodeError => [JSONDecodeError; ValueError]
  | KeyError => [KeyError]
  | TypeError => [TypeError]
  | RuntimeError => [RuntimeError]
  | psutil_Error => [psutil_Error]
  | psutil_NoSuchProcess => [psutil_NoSuchProcess; psutil_Error]
  | psutil_AccessDenied => [psutil_AccessDenied; psutil_Error]
  | requests_RequestException => [requests_RequestException; OSError]
  | requests_ConnectionError =>
      [requests_ConnectionError; requests_RequestException; OSError]
  | requests_Timeout => [requests_Timeout; requests_RequestException; OSError]
  | requests_ConnectTimeout =>
      [requests_ConnectTimeout; requests_ConnectionError; requests_Timeout;
       requests_RequestException; OSError]
  | requests_ReadTimeout =>
      [requests_ReadTimeout; requests_Timeout; requests_RequestException;
       OSError]
  | requests_InvalidJSONError =>
      [requests_InvalidJSONError; requests_RequestException; OSError]
  end.

(** A raised exception: its class and [str(e)]. *)
Record exn := Exn { exn_cls : exn_class; exn_str : string }.

Definition isinstance (e : exn) (c : exn_class) : bool :=
  bool_decide (c ∈ mro (exn_cls e)).

(** What a call to the outside answers. *)
Inductive result (A : Type) :=
| Ok (a : A)
| Err (e : exn).
Arguments Ok {A} a.
Arguments Err {A} e.

(** ** Outcomes, the log, and the monad of the agent's methods *)

(** A call returns, raises an exception below [Exception], or leaves
    through [sys.exit(code)], which no [except Exception] catches. *)
Inductive outcome (A : Type) :=
| Return (a : A)
| Raise (e : exn)
| SysExit (code : Z).
Arguments Return {A} a.
Arguments Raise {A} e.
Arguments SysExit {A} code.

Inductive level := DEBUG | INFO | WARNING | ERROR.

(** The records the module's [logger] has received, oldest first. *)
Definition log := list (level * string).

Definition M (A : Type) : Type := log → outcome A * log.

#[global] Instance M_ret : MRet M := λ A a l, (Return a, l).

#[global] Instance M_bind : MBind M := λ A B k m l,
  match m l with
  | (Return a, l') => k a l'
  | (Raise e, l') => (Raise e, l')
  | (SysExit c, l') => (SysExit c, l')
  end.

Definition raise {A} (e : exn) : M A := λ l, (Raise e, l).

Definition sys_exit {A} (code : Z) : M A := λ l, (SysExit code, l).

(** A call to the outside: its answer, returned or raised. *)
Definition call {A} (r : result A) : M A :=
  match r with
  | Ok a => mret a
  | Err e => raise e
  end.

Definition logger (lv : level) (msg : string) : M unit :=
  λ l, (Return tt, (l ++ [(lv, msg)])%list).

(** One [except] clause: the classes it names, or [except Exception]. *)
Inductive except_clause (A : Type) :=
| Except (classes : list exn_class) (handler : exn → M A)
| ExceptException (handler : exn → M A).
Arguments Except {A} classes handler.
Arguments ExceptException {A} handler.

Definition catches {A} (c : except_clause A) (e : exn) : bool :=
  match c with
  | Except classes _ => existsb (isinstance e) classes
  | ExceptException _ => true
  end.

Definition handler_of {A} (c : except_clause A) : exn → M A :=
  match c with
  | Except _ h => h
  | ExceptException h => h
  end.

(** The first clause that catches [e] handles it; with none, [e] goes on. *)
Fixpoint dispatch {A} (clauses : list (except_clause A)) (e : exn) : M A :=
  match clauses with
  | [] => raise e
  | c :: rest => if catches c e then handler_of c e else dispatch rest e
  end.

(** [try: body except ...]. *)
Definition try {A} (body : M A) (clauses : list (except_clause A)) : M A :=
  λ l,
    match body l with
    | (Raise e, l') => dispatch clauses e l'
    | r => r
    end.

(** The exit status of the process: 0 when the script runs to its end,
    the code of [sys.exit], and 1 when an exception is left unhandled. *)
Definition exit_status {A} (o : outcome A) : Z :=
  match o with
  | Return _ => 0
  | Raise _ => 1
  | SysExit code => code
  end.

(** ** binary64 arithmetic and [round] *)

Definition prec : Z := 53.
Definition emax : Z := 1024.

(** The integer [z] carrying the sign bit [s], held exactly (a mantissa
    of any size at exponent 0); with [z = 0], the zero of that sign. *)
Definition signed_int (s : bool) (z : Z) : float :=
  match z with
  | Zpos p => S754_finite s p 0
  | Zneg p => S754_finite (negb s) p 0
  | Z0 => S754_zero s
  end.

(** [float(z)]: the binary64 nearest to the [int]. *)
Definition float_of_int (z : Z) : float := binary_normalize prec emax z 0 false.

(** [a / b] on two [int]: the binary64 nearest to the exact quotient.
    The agent divides by non-zero constants only. *)
Definition int_truediv (a b : Z) : float :=
  SFdiv prec emax (signed_int false a) (signed_int false b).

(** [x / y] on two [float]. *)
Definition float_div (x y : float) : float := SFdiv prec emax x y.

(** The rational a float denotes (0 for what is not finite). *)
Definition float_value (x : float) : Q :=
  match x with
  | S754_finite s m e =>
      ((if s then -1 else 1) * inject_Z (Zpos m) * 2 ^ e)%Q
  | _ => 0%Q
  end.

(** The integer nearest to [q], the even one of the two at a tie. *)
Definition round_half_even (q : Q) : Z :=
  let f := Qfloor q in
  match (q - inject_Z f ?= 1 # 2)%Q with
  | Lt => f
  | Gt => f + 1
  | Eq => if Z.even f then f else f + 1
  end.

(** [round(x, ndigits)] on a [float], for [ndigits >= 0]: the exact
    value of [x] is rounded to [ndigits] decimals, ties to even, and
    the binary64 nearest to that decimal is returned; the sign is kept,
    and what is not finite is returned as it is. *)
Definition py_round (x : float) (ndigits : N) : float :=
  match x with
  | S754_finite s m e =>
      let scale := 10 ^ Z.of_N ndigits in
      let n := round_half_even (inject_Z (Zpos m) * 2 ^ e * inject_Z scale)%Q in
      SFdiv prec emax (signed_int s n) (signed_int false scale)
  | _ => x
  end.

(** ** Dict displays *)

(** An item of a dict display: [key: value], or [**mapping]. *)
Inductive display_item :=
| Item (key : string) (v : value)
| Unpack (m : dict).

(** [{item, item, ...}]: the items are written into a fresh dict from
    left to right, so a later item replaces an earlier one of its key. *)
Definition dict_display (items : list display_item) : dict :=
  fold_left
    (λ d item,
       match item with
       | Item key v => setitem d key v
       | Unpack m => update d m
       end)
    items ∅.

(** ** The outside: configuration file, operating system, network *)

(** The parsed configuration: the recognised keys with the types the
    configuration gives them, each present or absent. *)
Record config_json := {
  cfg_server_url : option string;
  cfg_api_key : option string;
  cfg_rig_id : option string;
  cfg_metadata : option dict;
  cfg_test_process_names : option (list string)
}.

(** [psutil.virtual_memory()]: sizes in bytes. *)
Record svmem := { svmem_total : Z; svmem_used : Z; svmem_percent : float }.

(** [psutil.disk_usage(path)]: sizes in bytes. *)
Record sdiskusage := { sdiskusage_free : Z; sdiskusage_percent : float }.

(** What reading [proc.info["name"]] of one live process gives: the name
    ([None] where the name was not readable), or one of the two errors
    [psutil] has for a process that is gone or out of reach. *)
Inductive proc :=
| ProcInfo (name : option string)
| ProcGone
| ProcDenied.

Definition info_name (p : proc) : result (option string) :=
  match p with
  | ProcInfo name => Ok name
  | ProcGone => Err (Exn psutil_NoSuchProcess "process no longer exists")
  | ProcDenied => Err (Exn psutil_AccessDenied "access denied")
  end.

(** [requests.post(url, json=..., headers=..., timeout=...)]. *)
Record request := {
  req_url : string;
  req_json : dict;
  req_headers : list (string * string);
  req_timeout : Z
}.

Record response := { status_code : Z; text : string }.

(** The answers of the outside to the calls of one run. A call made
    more than once is answered per call ([nat]: which call it is). Times
    are in microseconds; [psutil_boot_time] is
    [datetime.fromtimestamp(psutil.boot_time())] and [datetime_now] is
    [datetime.now()], both on the local clock. *)
Record world := {
  CONFIG_PATH : string;
  open_json_load : string → result config_json;
  psutil_boot_time : result Z;
  psutil_cpu_percent : result float;
  psutil_virtual_memory : nat → result svmem;
  psutil_disk_usage : string → nat → result sdiskusage;
  datetime_now : Z;
  datetime_now_utc_isoformat : nat → string;
  psutil_process_iter : list proc;
  socket_gethostname : result string;
  socket_gethostbyname : string → result string;
  platform_platform : string;
  requests_post : request → result response
}.

(** ** [RigAgent] *)

Record RigAgent := {
  config : config_json;
  server_url : string;
  api_key : string;
  rig_id : string;
  metadata : dict
}.

(** [d[key]] on the configuration: [KeyError] when the key is absent. *)
Definition getitem {A} (key : string) (entry : option A) : M A :=
  match entry with
  | Some v => mret v
  | None => raise (Exn KeyError ("'" +:+ key +:+ "'"))
  end.

Definition load_config (w : world) (config_path : string) : M config_json :=
  try (call (open_json_load w config_path))
    [ Except [FileNotFoundError]
        (λ _, logger ERROR ("Config file not found at " +:+ config_path);;
              sys_exit 1);
      Except [JSONDecodeError]
        (λ e, logger ERROR ("Invalid JSON in config file" +:+ nl +:+ exn_str e);;
              sys_exit 1) ].

(** [RigAgent.__init__]. *)
Definition RigAgent_init (w : world) (config_path : string) : M RigAgent :=
  config ← load_config w config_path;
  server_url ← getitem "server_url" (cfg_server_url config);
  api_key ← getitem "api_key" (cfg_api_key config);
  rig_id ← getitem "rig_id" (cfg_rig_id config);
  mret {| config := config;
          server_url := server_url;
          api_key := api_key;
          rig_id := rig_id;
          metadata := default ∅ (cfg_metadata config) |}.

Definition GiB : Z := 1024 ^ 3.

(** [timedelta.total_seconds()] of a difference of [micros] microseconds. *)
Definition total_seconds (micros : Z) : float := int_truediv micros (10 ^ 6).

(** The dict display [collect_system_status] returns, from the answers
    to its queries; [uptime] is [datetime.now() - boot_time]. *)
Definition snapshot (cpu : float) (vm_percent vm_used vm_total : svmem)
    (du_percent du_free : sdiskusage) (uptime : Z) : dict :=
  dict_display
    [ Item "cpu_percent" (VFloat cpu);
      Item "memory_percent" (VFloat (svmem_percent vm_percent));
      Item "memory_used_gb"
        (VFloat (py_round (int_truediv (svmem_used vm_used) GiB) 2));
      Item "memory_total_gb"
        (VFloat (py_round (int_truediv (svmem_total vm_total) GiB) 2));
      Item "disk_percent" (VFloat (sdiskusage_percent du_percent));
      Item "disk_free_gb"
        (VFloat (py_round (int_truediv (sdiskusage_free du_free) GiB) 2));
      Item "uptime_hours"
        (VFloat (py_round
           (float_div (total_seconds uptime) (float_of_int 3600)) 1)) ].

Definition collect_system_status (w : world) : M dict :=
  boot_time ← call (psutil_boot_time w);
  try
    (cpu ← call (psutil_cpu_percent w);
     vm_percent ← call (psutil_virtual_memory w 0);
     vm_used ← call (psutil_virtual_memory w 1);
     vm_total ← call (psutil_virtual_memory w 2);
     du_percent ← call (psutil_disk_usage w "C:\" 0);
     du_free ← call (psutil_disk_usage w "C:\" 1);
     mret (snapshot cpu vm_percent vm_used vm_total du_percent du_free
             (datetime_now w - boot_time)))
    [ ExceptException
        (λ e, logger ERROR ("Error collecting system status" +:+ nl +:+ exn_str e);;
              mret ∅) ].

(** [name in test_processes], for the name of a process ([None] is in no
    list of strings): equality of strings, character by character. *)
Definition name_in (name : option string) (test_processes : list string) : bool :=
  match name with
  | Some n => existsb (String.eqb n) test_processes
  | None => false
  end.

(** The loop of [check_test_running] over the processes still to visit. *)
Fixpoint check_test_running_loop (test_processes : list string)
    (procs : list proc) : M (bool * option string) :=
  match procs with
  | [] => mret (false, None)
  | p :: rest =>
      found ← try
        (name ← call (info_name p);
         mret (if name_in name test_processes then Some name else None))
        [ Except [psutil_NoSuchProcess; psutil_AccessDenied] (λ _, mret None) ];
      match found with
      | Some name => mret (true, name)
      | None => check_test_running_loop test_processes rest
      end
  end.

Definition check_test_running (w : world) (self : RigAgent)
    : M (bool * option string) :=
  let test_processes := default [] (cfg_test_process_names (config self)) in
  check_test_running_loop test_processes (psutil_process_iter w).

Definition get_network_info (w : world) : M dict :=
  try
    (hostname ← call (socket_gethostname w);
     ip_address ← call (socket_gethostbyname w hostname);
     mret (dict_display
       [ Item "hostname" (VStr hostname);
         Item "ip_address" (VStr ip_address) ]))
    [ ExceptException
        (λ e, logger ERROR ("Error getting network info" +:+ nl +:+ exn_str e);;
              mret (dict_display
                [ Item "hostname" (VStr "unknown");
                  Item "ip_address" (VStr "unknown") ])) ].

(** A process name or [None], as a value of the report. *)
Definition name_value (name : option string) : value :=
  match name with
  | Some n => VStr n
  | None => VNone
  end.

(** The dict display [status = {...}] of [collect_status]. *)
Definition status (self : RigAgent) (timestamp : string) (is_testing : bool)
    (test_name : option string) (network_info system_status : dict)
    (os : string) : dict :=
  dict_display
    [ Item "rig_id" (VStr (rig_id self));
      Item "timestamp" (VStr timestamp);
      Item "status" (VStr (if is_testing then "busy" else "available"));
      Item "is_testing" (VBool is_testing);
      Item "test_name" (name_value test_name);
      Unpack network_info;
      Unpack system_status;
      Unpack (metadata self);
      Item "agent_version" (VStr "1.0.0");
      Item "os" (VStr os) ].

Definition collect_status (w : world) (self : RigAgent) : M dict :=
  '(is_testing, test_name) ← check_test_running w self;
  network_info ← get_network_info w;
  system_status ← collect_system_status w;
  mret (status self (datetime_now_utc_isoformat w 1) is_testing test_name
          network_info system_status (platform_platform w)).

Definition heartbeat_request (self : RigAgent) (report : dict) : request :=
  {| req_url := server_url self +:+ "/api/heartbeat";
     req_json := report;
     req_headers :=
       [ ("Authorization", "Bearer " +:+ api_key self);
         ("Content-Type", "application/json") ];
     req_timeout := 15 |}.

Definition send_heartbeat (w : world) (self : RigAgent) (report : dict) : M bool :=
  try
    (response ← call (requests_post w (heartbeat_request self report));
     if bool_decide (status_code response = 200) then
       logger INFO ("Heartbeat sent successfully for " +:+ rig_id self);;
       mret true
     else
       logger ERROR ("Server returned status " +:+ pretty (status_code response)
                     +:+ ": " +:+ text response);;
       mret false)
    [ Except [requests_ConnectionError]
        (λ _, logger ERROR ("Cannot connect to server at " +:+ server_url self);;
              mret false);
      Except [requests_Timeout]
        (λ _, logger ERROR "Server request timed out";; mret false);
      ExceptException
        (λ e, logger ERROR ("Error sending heartbeat" +:+ nl +:+ exn_str e);;
              mret false) ].

Definition run (w : world) (self : RigAgent) : M unit :=
  logger INFO ("HIL Agent Run at " +:+ datetime_now_utc_isoformat w 0);;
  try
    (report ← collect_status w self;
     _ ← send_heartbeat w self report;
     mret tt)
    [ ExceptException
        (λ e, logger ERROR ("Error in agent run" +:+ nl +:+ exn_str e);;
              sys_exit 1) ].

(** The statements of the module that run at import, before the agent
    is built. *)
Definition module_level : M unit :=
  logger INFO "Agent starting";;
  logger DEBUG "Debug info";;
  logger WARNING "Warning message";;
  logger ERROR "Error occurred".

(** The script: the module, then [agent = RigAgent(); agent.run()]. *)
Definition main (w : world) : M unit :=
  module_level;;
  agent ← RigAgent_init w (CONFIG_PATH w);
  run w agent.

(** The process from its start: how it ends, and what it logged. *)
Definition process (w : world) : outcome unit * log := main w [].

(** The five items written first. *)
Definition status_head (self : RigAgent) (timestamp : string)
    (is_testing : bool) (test_name : option string) : dict :=
  dict_display
    [ Item "rig_id" (VStr (rig_id self));
      Item "timestamp" (VStr timestamp);
      Item "status" (VStr (if is_testing then "busy" else "available"));
      Item "is_testing" (VBool is_testing);
      Item "test_name" (name_value test_name) ].

(** The keys of the report that are written before the metadata: the
    agent's identity, the status fields, and the fields of the network
    probe and of the system snapshot. *)
Definition identity_fields : list string := ["rig_id"].
Definition status_fields : list string :=
  ["timestamp"; "status"; "is_testing"; "test_name"].
Definition network_fields : list string := ["hostname"; "ip_address"].
Definition snapshot_fields : list string :=
  ["cpu_percent"; "memory_percent"; "memory_used_gb"; "memory_total_gb";
   "disk_percent"; "disk_free_gb"; "uptime_hours"].

(** ** Sample runs *)

(** The configuration of the end-to-end scenarios, with [metadata] and
    the required keys it holds left open. *)
Definition sample_config (url key rig : option string) (meta : option dict)
    : config_json :=
  {| cfg_server_url := url;
     cfg_api_key := key;
     cfg_rig_id := rig;
     cfg_metadata := meta;
     cfg_test_process_names := Some ["hil.exe"] |}.

Definition sample_agent (meta : dict) : RigAgent :=
  {| config := sample_config (Some "http://x") (Some "k") (Some "r1") (Some meta);
     server_url := "http://x";
     api_key := "k";
     rig_id := "r1";
     metadata := meta |}.

(** A rig with 16 GiB of memory, 1 GiB of it used, up for 15 minutes. *)
Definition sample_world (cfg : result config_json) (boot : result Z)
    (procs : list proc) (answer : result response) : world :=
  {| CONFIG_PATH := "config.json";
     open_json_load := λ _, cfg;
     psutil_boot_time := boot;
     psutil_cpu_percent := Ok (float_of_int 12);
     psutil_virtual_memory := λ _,
       Ok {| svmem_total := 16 * GiB;
             svmem_used := 1073741824;
             svmem_percent := int_truediv 625 100 |};
     psutil_disk_usage := λ _ _,
       Ok {| sdiskusage_free := 200 * GiB;
             sdiskusage_percent := float_of_int 60 |};
     datetime_now := 900000000;
     datetime_now_utc_isoformat := λ _, "2024-01-01T00:00:00+00:00";
     psutil_process_iter := procs;
     socket_gethostname := Ok "rig-01";
     socket_gethostbyname := λ _, Ok "10.0.0.7";
     platform_platform := "Windows-10";
     requests_post := λ _, answer |}.

Definition idle_procs : list proc :=
  [ProcInfo (Some "explorer.exe"); ProcDenied; ProcInfo None; ProcGone;
   ProcInfo (Some "HIL.EXE"); ProcInfo (Some "hil")].

Definition busy_procs : list proc :=
  [ProcInfo (Some "explorer.exe"); ProcGone; ProcInfo (Some "hil.exe");
   ProcInfo (Some "cmd.exe")].

Definition http_ok : result response := Ok {| status_code := 200; text := "ok" |}.

Definition unreachable : result response :=
  Err (Exn requests_ConnectionError "connection refused").

(** [a] shifted left by [n] bits ([a] itself for [n <= 0]): the
    mantissa of the quotient of [a] by a power of two. *)
Definition shl (a : positive) (n : Z) : positive :=
  match n with
  | Zpos k => shift_pos k a
  | _ => a
  end.

(** What the module has logged when the agent is built. *)
Definition import_log : log := snd (module_level []).

(** ** Variations of a run *)

(** The world [w] with another collector behind [requests.post]. *)
Definition with_post (w : world) (answer : request → result response) : world :=
  {| CONFIG_PATH := CONFIG_PATH w;
     open_json_load := open_json_load w;
     psutil_boot_time := psutil_boot_time w;
     psutil_cpu_percent := psutil_cpu_percent w;
     psutil_virtual_memory := psutil_virtual_memory w;
     psutil_disk_usage := psutil_disk_usage w;
     datetime_now := datetime_now w;
     datetime_now_utc_isoformat := datetime_now_utc_isoformat w;
     psutil_process_iter := psutil_process_iter w;
     socket_gethostname := socket_gethostname w;
     socket_gethostbyname := socket_gethostbyname w;
     platform_platform := platform_platform w;
     requests_post := answer |}.

(** The world [w] with other answers of [psutil.disk_usage]. *)
Definition with_disk_usage (w : world)
    (answer : string → nat → result sdiskusage) : world :=
  {| CONFIG_PATH := CONFIG_PATH w;
     open_json_load := open_json_load w;
     psutil_boot_time := psutil_boot_time w;
     psutil_cpu_percent := psutil_cpu_percent w;
     psutil_virtual_memory := psutil_virtual_memory w;
     psutil_disk_usage := answer;
     datetime_now := datetime_now w;
     datetime_now_utc_isoformat := datetime_now_utc_isoformat w;
     psutil_process_iter := psutil_process_iter w;
     socket_gethostname := socket_gethostname w;
     socket_gethostbyname := socket_gethostbyname w;
     platform_platform := platform_platform w;
     requests_post := requests_post w |}.

(** A machine without a [C:] volume. *)
Definition no_C_volume : string → nat → result sdiskusage :=
  λ _ _, Err (Exn FileNotFoundError "No such file or directory: C:").

(** The sample rig with its configuration in place. *)
Definition sample_rig (procs : list proc) (answer : result response) : world :=
  sample_world
    (Ok (sample_config (Some "http://x") (Some "k") (Some "r1") None))
    (Ok 0) procs answer.

(** The keys every report holds, whatever the probes delivered. *)
Definition fixed_fields : list string :=
  (identity_fields ++ status_fields ++ network_fields
   ++ ["agent_version"; "os"])%list.

(** ** Running the monad *)

(** Unfolds the monad's operations and the [try] of a goal, and nothing
    of the agent's own displays. *)
Ltac mred :=
  cbv beta iota zeta
    delta [mbind M_bind mret M_ret call raise sys_exit try logger dispatch
           catches handler_of].

(** Closes [display !! k = None] for a display of items, from [H]: [k]
    is none of the keys. *)
Ltac absent_key H :=
  repeat (apply not_elem_of_cons in H as [? H]);
  unfold dict_display, setitem; simpl fold_left;
  rewrite ?lookup_insert_ne by congruence; apply lookup_empty.

(** * Properties *)

(** ** The dict display of the report *)

Lemma status_unfold self ts b tn net sys os :
  status self ts b tn net sys os =
  <["os" := VStr os]>
    (<["agent_version" := VStr "1.0.0"]>
       (metadata self ∪ (sys ∪ (net ∪ status_head self ts b tn)))).
Proof. reflexivity. Qed.

(** Below the two keys written last, a key is looked up in the
    metadata first, then in the snapshot, then in the network
    information, then among the first five items. *)
Lemma status_lookup self ts b tn net sys os (k : string) :
  k ≠ "agent_version" → k ≠ "os" →
  status self ts b tn net sys os !! k =
  (metadata self ∪ (sys ∪ (net ∪ status_head self ts b tn))) !! k.
Proof.
  intros Hv Ho. rewrite status_unfold.
  rewrite lookup_insert_ne by congruence.
  rewrite lookup_insert_ne by congruence.
  reflexivity.
Qed.





(** ** The process probe *)

(** Membership of a process name in the configured list is equality
    with one of its entries. *)
Lemma name_in_Some n names : name_in (Some n) names = true ↔ n ∈ names.
Proof.
  unfold name_in. rewrite existsb_exists. split.
  - intros (x & Hx & Heq). apply String.eqb_eq in Heq. subst x.
    by apply list_elem_of_In.
  - intros H. exists n. split; [by apply list_elem_of_In | apply String.eqb_refl].
Qed.

Lemma name_in_None names : name_in None names = false.
Proof. reflexivity. Qed.

(** One turn of the loop: a process whose name is configured ends the
    scan; any other process, and one whose name cannot be read, is
    passed over. *)
Lemma check_test_running_loop_step names p rest l :
  check_test_running_loop names (p :: rest) l =
  match p with
  | ProcInfo (Some n) =>
      if name_in (Some n) names then (Return (true, Some n), l)
      else check_test_running_loop names rest l
  | _ => check_test_running_loop names rest l
  end.
Proof.
  destruct p as [[n|]| |]; simpl check_test_running_loop; mred;
    simpl info_name; mred.
  - destruct (name_in (Some n) names); reflexivity.
  - reflexivity.
  - reflexivity.
  - reflexivity.
Qed.

Lemma check_test_running_loop_no_match names procs l :
  (∀ n, ProcInfo (Some n) ∈ procs → n ∉ names) →
  check_test_running_loop names procs l = (Return (false, None), l).
Proof.
  induction procs as [|p rest IH]; intros Hno; [reflexivity|].
  rewrite check_test_running_loop_step.
  assert (Hrest : check_test_running_loop names rest l = (Return (false, None), l)).
  { apply IH. intros n Hn. apply Hno. apply elem_of_cons; by right. }
  destruct p as [[n|]| |]; try exact Hrest.
  destruct (name_in (Some n) names) eqn:Hin; [|exact Hrest].
  apply name_in_Some in Hin. exfalso.
  apply (Hno n); [apply elem_of_cons; by left | exact Hin].
Qed.

Lemma check_test_running_loop_first_match names procs l n :
  ProcInfo (Some n) ∈ procs → n ∈ names →
  ∃ pre m post,
    procs = (pre ++ ProcInfo (Some m) :: post)%list
    ∧ m ∈ names
    ∧ (∀ k, ProcInfo (Some k) ∈ pre → k ∉ names)
    ∧ check_test_running_loop names procs l = (Return (true, Some m), l).
Proof.
  intros Hp Hn. induction procs as [|p rest IH]; [by apply elem_of_nil in Hp|].
  rewrite check_test_running_loop_step.
  assert (Hcase : (∃ k, p = ProcInfo (Some k) ∧ k ∈ names)
                  ∨ (∀ k, p = ProcInfo (Some k) → k ∉ names)).
  { destruct p as [[k|]| |]; try (right; intros; discriminate).
    destruct (name_in (Some k) names) eqn:Hin.
    - left. exists k. split; [reflexivity | by apply name_in_Some].
    - right. intros k' [= <-] Hk. apply name_in_Some in Hk. congruence. }
  destruct Hcase as [(k & -> & Hk)|Hnot].
  - exists [], k, rest.
    repeat split; [exact Hk | intros k' Hk'; by apply elem_of_nil in Hk' |].
    apply name_in_Some in Hk. rewrite Hk. reflexivity.
  - assert (Hrest : ProcInfo (Some n) ∈ rest).
    { apply elem_of_cons in Hp as [<-|Hp]; [|exact Hp].
      exfalso. by apply (Hnot n). }
    destruct (IH Hrest) as (pre & m & post & -> & Hm & Hpre & Heq).
    exists (p :: pre), m, post. repeat split; [exact Hm | |].
    + intros k Hk.
      apply elem_of_cons in Hk as [<-|Hk]; [by apply Hnot | by apply Hpre].
    + destruct p as [[k|]| |]; try exact Heq.
      destruct (name_in (Some k) names) eqn:Hin; [|exact Heq].
      apply name_in_Some in Hin. exfalso. by apply (Hnot k).
Qed.

(** The probe always returns, and logs nothing. *)
Lemma check_test_running_returns w self l :
  ∃ b tn, check_test_running w self l = (Return (b, tn), l).
Proof.
  unfold check_test_running.
  generalize (default [] (cfg_test_process_names (config self))) as names.
  intros names. induction (psutil_process_iter w) as [|p rest IH].
  - by exists false, None.
  - rewrite check_test_running_loop_step.
    destruct p as [[n|]| |]; try exact IH.
    destruct (name_in (Some n) names); [by exists true, (Some n) | exact IH].
Qed.

(** C5. When no live process carries a configured name, and so whenever
    the configured list is empty or absent, [check_test_running] returns
    [(False, None)]. *)
Theorem no_match_reports_not_active w self l :
  ((∀ n, ProcInfo (Some n) ∈ psutil_process_iter w →
         n ∉ default [] (cfg_test_process_names (config self))) →
   check_test_running w self l = (Return (false, None), l))
  ∧ (default [] (cfg_test_process_names (config self)) = [] →
     check_test_running w self l = (Return (false, None), l)).
Proof.
  split.
  - intros Hno. by apply check_test_running_loop_no_match.
  - intros Hnil. unfold check_test_running. rewrite Hnil.
    apply check_test_running_loop_no_match.
    intros n _ Hn. by apply elem_of_nil in Hn.
Qed.

Lemma no_match_reports_not_active_witness :
  check_test_running
    (sample_world (Err (Exn FileNotFoundError "config.json")) (Ok 0) idle_procs http_ok)
    (sample_agent ∅) [] = (Return (false, None), []).
Proof.
  apply (proj1 (no_match_reports_not_active _ _ _)).
  intros n Hn Hin. simpl in Hn, Hin.
  apply list_elem_of_singleton in Hin. subst n.
  unfold idle_procs in Hn. rewrite !elem_of_cons, elem_of_nil in Hn.
  intuition discriminate.
Defined.

(** C6. When a live process carries a configured name,
    [check_test_running] returns [True] with the name of the first such
    process of the table; that name equals an entry of the list as a
    string, character for character. *)
Theorem first_match_reports_active w self l n :
  ProcInfo (Some n) ∈ psutil_process_iter w →
  n ∈ default [] (cfg_test_process_names (config self)) →
  ∃ pre m post,
    psutil_process_iter w = (pre ++ ProcInfo (Some m) :: post)%list
    ∧ m ∈ default [] (cfg_test_process_names (config self))
    ∧ (∀ k, ProcInfo (Some k) ∈ pre →
            k ∉ default [] (cfg_test_process_names (config self)))
    ∧ check_test_running w self l = (Return (true, Some m), l).
Proof.
  intros Hp Hn. unfold check_test_running.
  by apply check_test_running_loop_first_match with (n := n).
Qed.

Lemma first_match_reports_active_witness :
  ∃ pre m post,
    busy_procs = (pre ++ ProcInfo (Some m) :: post)%list
    ∧ m ∈ ["hil.exe"]
    ∧ (∀ k, ProcInfo (Some k) ∈ pre → k ∉ ["hil.exe"])
    ∧ check_test_running
        (sample_world (Err (Exn FileNotFoundError "config.json")) (Ok 0) busy_procs http_ok)
        (sample_agent ∅) [] = (Return (true, Some m), []).
Proof.
  apply (first_match_reports_active
           (sample_world (Err (Exn FileNotFoundError "config.json")) (Ok 0) busy_procs http_ok)
           (sample_agent ∅) [] "hil.exe").
  - simpl. unfold busy_procs. rewrite !elem_of_cons. tauto.
  - simpl. apply list_elem_of_singleton. reflexivity.
Defined.

(** A name that differs from the entry in case only, or that is a part
    of it, does not match. *)
Example case_and_substring_do_not_match :
  name_in (Some "HIL.EXE") ["hil.exe"] = false
  ∧ name_in (Some "hil") ["hil.exe"] = false
  ∧ name_in (Some "hil.exe") ["hil.exe"] = true.
Proof. repeat split. Qed.

(** ** The network probe and the system snapshot *)

Lemma network_display_lookup a b (k : string) :
  k ∉ network_fields →
  dict_display [Item "hostname" a; Item "ip_address" b] !! k = None.
Proof. intros H. unfold network_fields in H. absent_key H. Qed.

Lemma snapshot_lookup cpu v0 v1 v2 d0 d1 up (k : string) :
  k ∉ snapshot_fields → snapshot cpu v0 v1 v2 d0 d1 up !! k = None.
Proof. intros H. unfold snapshot_fields in H. unfold snapshot. absent_key H. Qed.

(** The network probe always returns, with its two keys and no other. *)
Lemma get_network_info_returns w l :
  ∃ d l', get_network_info w l = (Return d, l')
          ∧ ∀ k : string, k ∉ network_fields → d !! k = None.
Proof.
  unfold get_network_info.
  destruct (socket_gethostname w) as [hostname|e].
  - destruct (socket_gethostbyname w hostname) as [ip|e] eqn:Hip.
    + eexists _, _. split; [mred; rewrite Hip; reflexivity|].
      apply network_display_lookup.
    + eexists _, _. split; [mred; rewrite Hip; reflexivity|].
      apply network_display_lookup.
  - eexists _, _. split; [mred; reflexivity|]. apply network_display_lookup.
Qed.

(** The boot time is queried before the [try]: its failure leaves
    [collect_system_status] as it is raised, and nothing is logged. *)
Lemma collect_system_status_boot_failure w e l :
  psutil_boot_time w = Err e → collect_system_status w l = (Raise e, l).
Proof. intros H. unfold collect_system_status. rewrite H. reflexivity. Qed.

(** With the boot time at hand, a failure of any later query is logged
    and answered by the empty dict. *)
Lemma collect_system_status_metric_failure w bt l :
  psutil_boot_time w = Ok bt →
  (∃ e, psutil_cpu_percent w = Err e)
  ∨ (∃ e n, (n < 3)%nat ∧ psutil_virtual_memory w n = Err e)
  ∨ (∃ e n, (n < 2)%nat ∧ psutil_disk_usage w "C:\" n = Err e) →
  ∃ e, collect_system_status w l =
       (Return ∅,
        (l ++ [(ERROR, "Error collecting system status" +:+ nl +:+ exn_str e)])%list).
Proof.
  intros Hb Hfail. unfold collect_system_status. rewrite Hb.
  destruct (psutil_cpu_percent w) as [cpu|e0] eqn:H0;
    [|eexists; mred; reflexivity].
  destruct (psutil_virtual_memory w 0) as [v0|e1] eqn:H1;
    [|eexists; mred; reflexivity].
  destruct (psutil_virtual_memory w 1) as [v1|e2] eqn:H2;
    [|eexists; mred; reflexivity].
  destruct (psutil_virtual_memory w 2) as [v2|e3] eqn:H3;
    [|eexists; mred; reflexivity].
  destruct (psutil_disk_usage w "C:\" 0) as [d0|e4] eqn:H4;
    [|eexists; mred; reflexivity].
  destruct (psutil_disk_usage w "C:\" 1) as [d1|e5] eqn:H5;
    [|eexists; mred; reflexivity].
  exfalso. destruct Hfail as [(e & He)|[(e & n & Hn & He)|(e & n & Hn & He)]].
  - discriminate.
  - destruct n as [|[|[|n]]]; [congruence..|lia].
  - destruct n as [|[|n]]; [congruence..|lia].
Qed.

(** With every query answered, the snapshot is returned and nothing is
    logged. *)
Lemma collect_system_status_all_ok w l bt cpu v0 v1 v2 d0 d1 :
  psutil_boot_time w = Ok bt →
  psutil_cpu_percent w = Ok cpu →
  psutil_virtual_memory w 0 = Ok v0 →
  psutil_virtual_memory w 1 = Ok v1 →
  psutil_virtual_memory w 2 = Ok v2 →
  psutil_disk_usage w "C:\" 0 = Ok d0 →
  psutil_disk_usage w "C:\" 1 = Ok d1 →
  collect_system_status w l =
  (Return (snapshot cpu v0 v1 v2 d0 d1 (datetime_now w - bt)), l).
Proof.
  intros Hb Hc H0 H1 H2 H3 H4. unfold collect_system_status.
  rewrite Hb, Hc, H0, H1, H2, H3, H4. reflexivity.
Qed.

Lemma collect_system_status_returns w bt l :
  psutil_boot_time w = Ok bt →
  ∃ d l', collect_system_status w l = (Return d, l')
          ∧ ∀ k : string, k ∉ snapshot_fields → d !! k = None.
Proof.
  intros H. unfold collect_system_status. rewrite H.
  destruct (psutil_cpu_percent w);
    [|eexists _, _; split; [mred; reflexivity|intros; apply lookup_empty]].
  destruct (psutil_virtual_memory w 0);
    [|eexists _, _; split; [mred; reflexivity|intros; apply lookup_empty]].
  destruct (psutil_virtual_memory w 1);
    [|eexists _, _; split; [mred; reflexivity|intros; apply lookup_empty]].
  destruct (psutil_virtual_memory w 2);
    [|eexists _, _; split; [mred; reflexivity|intros; apply lookup_empty]].
  destruct (psutil_disk_usage w "C:\" 0);
    [|eexists _, _; split; [mred; reflexivity|intros; apply lookup_empty]].
  destruct (psutil_disk_usage w "C:\" 1);
    [|eexists _, _; split; [mred; reflexivity|intros; apply lookup_empty]].
  eexists _, _; split; [mred; reflexivity|]. apply snapshot_lookup.
Qed.

(** ** Composing the report *)

(** With the boot time at hand the report is composed: the display
    [status] over the results of the three probes. *)
Lemma collect_status_returns w self l bt :
  psutil_boot_time w = Ok bt →
  ∃ b tn net sys l',
    check_test_running w self l = (Return (b, tn), l)
    ∧ (∀ k : string, k ∉ network_fields → net !! k = None)
    ∧ (∀ k : string, k ∉ snapshot_fields → sys !! k = None)
    ∧ collect_status w self l =
      (Return (status self (datetime_now_utc_isoformat w 1) b tn net sys
                 (platform_platform w)), l').
Proof.
  intros Hb.
  destruct (check_test_running_returns w self l) as (b & tn & Hc).
  destruct (get_network_info_returns w l) as (net & l1 & Hn & Hnet).
  destruct (collect_system_status_returns w bt l1 Hb) as (sys & l2 & Hs & Hsys).
  exists b, tn, net, sys, l2. repeat split; try assumption.
  unfold collect_status. mred. rewrite Hc. cbv beta iota.
  rewrite Hn. cbv beta iota. rewrite Hs. reflexivity.
Qed.

(** Without it, the exception of the boot-time query leaves
    [collect_status] too. *)
Lemma collect_status_raises w self l e :
  psutil_boot_time w = Err e → ∃ l', collect_status w self l = (Raise e, l').
Proof.
  intros Hb.
  destruct (check_test_running_returns w self l) as (b & tn & Hc).
  destruct (get_network_info_returns w l) as (net & l1 & Hn & _).
  exists l1. unfold collect_status. mred. rewrite Hc. cbv beta iota.
  rewrite Hn. cbv beta iota.
  rewrite (collect_system_status_boot_failure w e l1 Hb). reflexivity.
Qed.

(** ** Sending the heartbeat *)

(** The outcome and the log record of [send_heartbeat], by the answer
    to the POST. *)
Lemma send_heartbeat_eval w self report l :
  send_heartbeat w self report l =
  match requests_post w (heartbeat_request self report) with
  | Ok r =>
      if bool_decide (status_code r = 200)
      then (Return true,
            (l ++ [(INFO, "Heartbeat sent successfully for " +:+ rig_id self)])%list)
      else (Return false,
            (l ++ [(ERROR, "Server returned status " +:+ pretty (status_code r)
                           +:+ ": " +:+ text r)])%list)
  | Err e =>
      if isinstance e requests_ConnectionError
      then (Return false,
            (l ++ [(ERROR, "Cannot connect to server at " +:+ server_url self)])%list)
      else if isinstance e requests_Timeout
      then (Return false, (l ++ [(ERROR, "Server request timed out")])%list)
      else (Return false,
            (l ++ [(ERROR, "Error sending heartbeat" +:+ nl +:+ exn_str e)])%list)
  end.
Proof.
  unfold send_heartbeat.
  destruct (requests_post w (heartbeat_request self report)) as [r|e].
  - mred. destruct (bool_decide (status_code r = 200)); reflexivity.
  - mred. cbn [existsb]. rewrite !orb_false_r.
    destruct (isinstance e requests_ConnectionError); [reflexivity|].
    destruct (isinstance e requests_Timeout); reflexivity.
Qed.

Lemma send_heartbeat_returns w self report l :
  ∃ ok l', send_heartbeat w self report l = (Return ok, l').
Proof.
  rewrite send_heartbeat_eval.
  destruct (requests_post w (heartbeat_request self report)) as [r|e].
  - destruct (bool_decide _); eauto.
  - destruct (isinstance e requests_ConnectionError); [eauto|].
    destruct (isinstance e requests_Timeout); eauto.
Qed.

(** The three causes are told apart by the first characters of their
    messages. *)
Lemma heartbeat_messages_distinct url code body :
  "Cannot connect to server at " +:+ url ≠ "Server request timed out"
  ∧ "Cannot connect to server at " +:+ url
    ≠ "Server returned status " +:+ code +:+ ": " +:+ body
  ∧ "Server request timed out"
    ≠ "Server returned status " +:+ code +:+ ": " +:+ body.
Proof. repeat split; simpl; discriminate. Qed.

(** Which exceptions of [requests] the first two clauses catch. A
    timeout while connecting is a [ConnectionError] as well, and the
    clause of [ConnectionError] comes first. *)
Lemma requests_clauses msg :
  isinstance (Exn requests_ConnectionError msg) requests_ConnectionError = true
  ∧ isinstance (Exn requests_Timeout msg) requests_ConnectionError = false
  ∧ isinstance (Exn requests_Timeout msg) requests_Timeout = true
  ∧ isinstance (Exn requests_ReadTimeout msg) requests_ConnectionError = false
  ∧ isinstance (Exn requests_ReadTimeout msg) requests_Timeout = true
  ∧ isinstance (Exn requests_ConnectTimeout msg) requests_ConnectionError = true.
Proof. repeat split. Qed.

(** C3, as the code has it. [send_heartbeat] never raises and never
    exits: it returns a boolean and logs one record. It returns [True]
    exactly when the response has status 200. A response of any other
    status, a refused connection, and a timeout that is no
    [ConnectionError] ([Timeout] itself, [ReadTimeout]: no response
    within the bound) each return [False] with a message of their own,
    and so does any other fault of the transport. A fault that is a
    [ConnectionError] is logged as a connection failure whatever else
    it is: a timeout while connecting ([ConnectTimeout], a [Timeout]
    too) leaves the record of a refused connection. *)
Theorem send_heartbeat_classifies w self report l :
  (∃ ok entry,
     send_heartbeat w self report l = (Return ok, (l ++ [entry])%list)
     ∧ (ok = true ↔
        ∃ r, requests_post w (heartbeat_request self report) = Ok r
             ∧ status_code r = 200))
  ∧ (∀ r, requests_post w (heartbeat_request self report) = Ok r →
          status_code r ≠ 200 →
          send_heartbeat w self report l =
          (Return false,
           (l ++ [(ERROR, "Server returned status " +:+ pretty (status_code r)
                          +:+ ": " +:+ text r)])%list))
  ∧ (∀ msg, requests_post w (heartbeat_request self report)
            = Err (Exn requests_ConnectionError msg) →
          send_heartbeat w self report l =
          (Return false,
           (l ++ [(ERROR, "Cannot connect to server at " +:+ server_url self)])%list))
  ∧ (∀ c msg, c = requests_Timeout ∨ c = requests_ReadTimeout →
          requests_post w (heartbeat_request self report) = Err (Exn c msg) →
          send_heartbeat w self report l =
          (Return false, (l ++ [(ERROR, "Server request timed out")])%list))
  ∧ (∀ e, requests_post w (heartbeat_request self report) = Err e →
          isinstance e requests_ConnectionError = false →
          isinstance e requests_Timeout = false →
          send_heartbeat w self report l =
          (Return false,
           (l ++ [(ERROR, "Error sending heartbeat" +:+ nl +:+ exn_str e)])%list))
  ∧ (∀ code body,
       "Cannot connect to server at " +:+ server_url self
       ≠ "Server request timed out"
       ∧ "Cannot connect to server at " +:+ server_url self
         ≠ "Server returned status " +:+ code +:+ ": " +:+ body
       ∧ "Server request timed out"
         ≠ "Server returned status " +:+ code +:+ ": " +:+ body)
  ∧ (∀ e, requests_post w (heartbeat_request self report) = Err e →
          isinstance e requests_ConnectionError = true →
          send_heartbeat w self report l =
          (Return false,
           (l ++ [(ERROR, "Cannot connect to server at " +:+ server_url self)])%list))
  ∧ (∀ e, requests_post w (heartbeat_request self report) = Err e →
          isinstance e requests_Timeout = true →
          isinstance e requests_ConnectionError = false →
          send_heartbeat w self report l =
          (Return false, (l ++ [(ERROR, "Server request timed out")])%list))
  ∧ (∀ msg,
       isinstance (Exn requests_ConnectTimeout msg) requests_Timeout = true
       ∧ isinstance (Exn requests_ConnectTimeout msg) requests_ConnectionError = true
       ∧ isinstance (Exn requests_Timeout msg) requests_ConnectionError = false
       ∧ isinstance (Exn requests_ReadTimeout msg) requests_ConnectionError = false)
  ∧ (∀ msg, requests_post w (heartbeat_request self report)
            = Err (Exn requests_ConnectTimeout msg) →
          send_heartbeat w self report l =
          (Return false,
           (l ++ [(ERROR, "Cannot connect to server at " +:+ server_url self)])%list)).
Proof.
  rewrite send_heartbeat_eval. repeat apply conj.
  - destruct (requests_post w (heartbeat_request self report)) as [r|e].
    + destruct (bool_decide (status_code r = 200)) eqn:H200.
      * eexists _, _. split; [reflexivity|]. split; [|reflexivity].
        intros _. exists r. split; [reflexivity|].
        by apply bool_decide_eq_true in H200.
      * eexists _, _. split; [reflexivity|]. split; [discriminate|].
        intros (r' & [= <-] & Hr). apply bool_decide_eq_false in H200. contradiction.
    + destruct (isinstance e requests_ConnectionError);
        [|destruct (isinstance e requests_Timeout)];
        (eexists _, _; split; [reflexivity|]; split; [discriminate|]);
        intros (r & Hr & _); discriminate.
  - intros r -> Hr. by rewrite bool_decide_eq_false_2.
  - intros msg ->. reflexivity.
  - intros c msg [-> | ->] ->; reflexivity.
  - intros e -> -> ->. reflexivity.
  - intros code body. apply heartbeat_messages_distinct.
  - intros e -> ->. reflexivity.
  - intros e -> Ht ->. rewrite Ht. reflexivity.
  - intros msg. repeat split.
  - intros msg ->. reflexivity.
Qed.

Lemma send_heartbeat_classifies_witness :
  send_heartbeat
    (sample_world (Err (Exn FileNotFoundError "config.json")) (Ok 0) idle_procs
       (Ok {| status_code := 500; text := "oops" |}))
    (sample_agent ∅) ∅ []
  = (Return false, [(ERROR, "Server returned status 500: oops")]).
Proof.
  apply (proj1 (proj2 (send_heartbeat_classifies
           (sample_world (Err (Exn FileNotFoundError "config.json")) (Ok 0)
              idle_procs (Ok {| status_code := 500; text := "oops" |}))
           (sample_agent ∅) ∅ []))
           {| status_code := 500; text := "oops" |});
    [reflexivity | discriminate].
Defined.

(** C3, as it is stated, fails: a timeout does not always leave a
    record of its own. With one collector that refuses the connection
    and one that lets the connection attempt time out
    ([ConnectTimeout], an instance of [Timeout]), [send_heartbeat]
    returns the same value and leaves the same log, so the two causes
    cannot be told apart. *)
Lemma timeout_not_told_from_refused_connection :
  ¬ (∀ w1 w2 self report l e1 e2,
       requests_post w1 (heartbeat_request self report) = Err e1 →
       exn_cls e1 = requests_ConnectionError →
       requests_post w2 (heartbeat_request self report) = Err e2 →
       isinstance e2 requests_Timeout = true →
       send_heartbeat w1 self report l ≠ send_heartbeat w2 self report l).
Proof.
  intros H.
  apply (H (sample_rig idle_procs unreachable)
           (sample_rig idle_procs
              (Err (Exn requests_ConnectTimeout "connect timed out")))
           (sample_agent ∅) ∅ []
           (Exn requests_ConnectionError "connection refused")
           (Exn requests_ConnectTimeout "connect timed out")
           eq_refl eq_refl eq_refl eq_refl).
  reflexivity.
Qed.

(** ** One run *)

(** [run] by the outcome of [collect_status]: a composed report is sent
    and the outcome of sending is dropped; an exception is logged and
    ends the process with status 1. *)
Lemma run_eval w self l :
  run w self l =
  match collect_status w self
          (l ++ [(INFO, "HIL Agent Run at " +:+ datetime_now_utc_isoformat w 0)])%list
  with
  | (Return report, l1) => (Return tt, snd (send_heartbeat w self report l1))
  | (Raise e, l1) =>
      (SysExit 1, (l1 ++ [(ERROR, "Error in agent run" +:+ nl +:+ exn_str e)])%list)
  | (SysExit c, l1) => (SysExit c, l1)
  end.
Proof.
  unfold run. mred.
  destruct (collect_status w self _) as [[report|e|c] l1]; try reflexivity.
  destruct (send_heartbeat_returns w self report l1) as (ok & l2 & Hs).
  rewrite Hs. reflexivity.
Qed.

(** ** Building the agent *)

Lemma load_config_eval w path l :
  load_config w path l =
  match open_json_load w path with
  | Ok cfg => (Return cfg, l)
  | Err e =>
      if isinstance e FileNotFoundError
      then (SysExit 1, (l ++ [(ERROR, "Config file not found at " +:+ path)])%list)
      else if isinstance e JSONDecodeError
      then (SysExit 1,
            (l ++ [(ERROR, "Invalid JSON in config file" +:+ nl +:+ exn_str e)])%list)
      else (Raise e, l)
  end.
Proof.
  unfold load_config.
  destruct (open_json_load w path) as [cfg|e]; mred; [reflexivity|].
  cbn [existsb]. rewrite !orb_false_r.
  destruct (isinstance e FileNotFoundError); [reflexivity|].
  destruct (isinstance e JSONDecodeError); reflexivity.
Qed.

Lemma RigAgent_init_ok w path l cfg url key rig :
  open_json_load w path = Ok cfg →
  cfg_server_url cfg = Some url →
  cfg_api_key cfg = Some key →
  cfg_rig_id cfg = Some rig →
  RigAgent_init w path l =
  (Return {| config := cfg; server_url := url; api_key := key; rig_id := rig;
             metadata := default ∅ (cfg_metadata cfg) |}, l).
Proof.
  intros Ho Hu Hk Hr. unfold RigAgent_init. mred. rewrite load_config_eval, Ho.
  cbv beta iota. rewrite Hu, Hk, Hr. reflexivity.
Qed.

Lemma RigAgent_init_missing_key w path l cfg :
  open_json_load w path = Ok cfg →
  cfg_server_url cfg = None ∨ cfg_api_key cfg = None ∨ cfg_rig_id cfg = None →
  ∃ key, key ∈ ["server_url"; "api_key"; "rig_id"]
         ∧ RigAgent_init w path l = (Raise (Exn KeyError ("'" +:+ key +:+ "'")), l).
Proof.
  intros Ho Hmiss. unfold RigAgent_init. mred. rewrite load_config_eval, Ho.
  cbv beta iota.
  destruct (cfg_server_url cfg) as [url|].
  2:{ exists "server_url". split; [rewrite !elem_of_cons; tauto | reflexivity]. }
  destruct (cfg_api_key cfg) as [key|].
  2:{ exists "api_key". split; [rewrite !elem_of_cons; tauto | reflexivity]. }
  destruct (cfg_rig_id cfg) as [rig|].
  2:{ exists "rig_id". split; [rewrite !elem_of_cons; tauto | reflexivity]. }
  exfalso. destruct Hmiss as [?|[?|?]]; discriminate.
Qed.

(** A configuration file that cannot be read or parsed ends the
    process before the agent exists: by [sys.exit(1)] after a logged
    error for a missing file or invalid JSON, by the exception itself
    for anything else. *)
Lemma RigAgent_init_load_failure w path l e :
  open_json_load w path = Err e →
  ∃ o l', RigAgent_init w path l = (o, l') ∧ exit_status o = 1
          ∧ ∀ agent, o ≠ Return agent.
Proof.
  intros Ho. unfold RigAgent_init. mred. rewrite load_config_eval, Ho.
  destruct (isinstance e FileNotFoundError);
    [|destruct (isinstance e JSONDecodeError)];
    eexists _, _; (split; [reflexivity|]); split; try reflexivity; discriminate.
Qed.

Lemma process_eval w :
  process w =
  match RigAgent_init w (CONFIG_PATH w) import_log with
  | (Return agent, l) => run w agent l
  | (Raise e, l) => (Raise e, l)
  | (SysExit c, l) => (SysExit c, l)
  end.
Proof. reflexivity. Qed.

(** ** Failures and the exit status *)

(** An exception of the boot-time query ends [run] through
    [sys.exit(1)]. *)
Lemma run_exits_on_boot_failure w self e l :
  psutil_boot_time w = Err e → ∃ l', run w self l = (SysExit 1, l').
Proof.
  intros Hb. rewrite run_eval.
  destruct (collect_status_raises w self
              (l ++ [(INFO, "HIL Agent Run at " +:+ datetime_now_utc_isoformat w 0)])%list
              e Hb) as (l1 & ->).
  eauto.
Qed.

(** C2, at the failing query. A failure of the boot-time query is not
    turned into an empty snapshot: the exception leaves
    [collect_system_status] with nothing logged there, leaves
    [collect_status], and ends [run] through [sys.exit(1)]. *)
Theorem boot_time_failure_escapes w self e l :
  psutil_boot_time w = Err e →
  collect_system_status w l = (Raise e, l)
  ∧ (∃ l', collect_status w self l = (Raise e, l'))
  ∧ (∃ l', run w self l = (SysExit 1, l')).
Proof.
  intros Hb. split; [by apply collect_system_status_boot_failure|].
  split; [by apply collect_status_raises|].
  by apply run_exits_on_boot_failure with (e := e).
Qed.

Lemma boot_time_failure_escapes_witness :
  collect_system_status
    (sample_world (Err (Exn FileNotFoundError "config.json"))
       (Err (Exn OSError "boot time unavailable")) idle_procs http_ok) []
  = (Raise (Exn OSError "boot time unavailable"), []).
Proof.
  apply (proj1 (boot_time_failure_escapes
           (sample_world (Err (Exn FileNotFoundError "config.json"))
              (Err (Exn OSError "boot time unavailable")) idle_procs http_ok)
           (sample_agent ∅) (Exn OSError "boot time unavailable") [] eq_refl)).
Defined.

(** The process ends with status 0 exactly when the configuration was
    loaded with its required keys and the boot-time query was answered. *)
Lemma exit_status_zero w :
  exit_status (fst (process w)) = 0 ↔
  ∃ cfg url key rig bt,
    open_json_load w (CONFIG_PATH w) = Ok cfg
    ∧ cfg_server_url cfg = Some url
    ∧ cfg_api_key cfg = Some key
    ∧ cfg_rig_id cfg = Some rig
    ∧ psutil_boot_time w = Ok bt.
Proof.
  rewrite process_eval. split.
  - intros Hz.
    destruct (open_json_load w (CONFIG_PATH w)) as [cfg|e] eqn:Ho.
    2:{ destruct (RigAgent_init_load_failure w (CONFIG_PATH w) import_log e Ho)
          as (o & l' & Hi & Hst & _).
        rewrite Hi in Hz. destruct o; simpl in *; congruence. }
    destruct (cfg_server_url cfg) as [url|] eqn:Hu.
    2:{ destruct (RigAgent_init_missing_key w (CONFIG_PATH w) import_log cfg Ho)
          as (k & _ & Hi); [tauto|]. rewrite Hi in Hz. discriminate. }
    destruct (cfg_api_key cfg) as [key|] eqn:Hk.
    2:{ destruct (RigAgent_init_missing_key w (CONFIG_PATH w) import_log cfg Ho)
          as (k & _ & Hi); [tauto|]. rewrite Hi in Hz. discriminate. }
    destruct (cfg_rig_id cfg) as [rig|] eqn:Hr.
    2:{ destruct (RigAgent_init_missing_key w (CONFIG_PATH w) import_log cfg Ho)
          as (k & _ & Hi); [tauto|]. rewrite Hi in Hz. discriminate. }
    rewrite (RigAgent_init_ok w _ _ cfg url key rig Ho Hu Hk Hr) in Hz.
    destruct (psutil_boot_time w) as [bt|e] eqn:Hb; [by exists cfg, url, key, rig, bt|].
    exfalso. revert Hz.
    match goal with |- context [run w ?a ?l0] =>
      destruct (run_exits_on_boot_failure w a e l0 Hb) as (l' & ->)
    end.
    discriminate.
  - intros (cfg & url & key & rig & bt & Ho & Hu & Hk & Hr & Hb).
    rewrite (RigAgent_init_ok w _ _ cfg url key rig Ho Hu Hk Hr).
    rewrite run_eval.
    match goal with |- context [collect_status w ?a ?l0] =>
      destruct (collect_status_returns w a l0 bt Hb)
        as (b & tn & net & sys & l' & _ & _ & _ & ->)
    end.
    reflexivity.
Qed.

(** C8. A failed transmission is not fatal. With the collector out of
    reach [send_heartbeat] returns [False] and logs the connection
    failure; with the configuration loaded and the cycle free of
    exceptions the process runs to its end with status 0, whatever the
    collector answers; and the status is non-zero only when loading the
    configuration fails (the file cannot be read or parsed, or a
    required key is absent) or an exception is raised in the cycle. *)
Theorem failed_heartbeat_is_not_fatal w :
  (∀ self report l msg,
     requests_post w (heartbeat_request self report)
     = Err (Exn requests_ConnectionError msg) →
     send_heartbeat w self report l =
     (Return false,
      (l ++ [(ERROR, "Cannot connect to server at " +:+ server_url self)])%list))
  ∧ (∀ self l report l1,
       collect_status w self
         (l ++ [(INFO, "HIL Agent Run at " +:+ datetime_now_utc_isoformat w 0)])%list
       = (Return report, l1) →
       ∃ l', run w self l = (Return tt, l'))
  ∧ (∀ cfg url key rig bt,
       open_json_load w (CONFIG_PATH w) = Ok cfg →
       cfg_server_url cfg = Some url →
       cfg_api_key cfg = Some key →
       cfg_rig_id cfg = Some rig →
       psutil_boot_time w = Ok bt →
       ∃ l', process w = (Return tt, l') ∧ exit_status (fst (process w)) = 0)
  ∧ (exit_status (fst (process w)) ≠ 0 →
     (∃ e, open_json_load w (CONFIG_PATH w) = Err e)
     ∨ (∃ cfg, open_json_load w (CONFIG_PATH w) = Ok cfg
               ∧ (cfg_server_url cfg = None ∨ cfg_api_key cfg = None
                  ∨ cfg_rig_id cfg = None))
     ∨ (∃ agent e l',
          RigAgent_init w (CONFIG_PATH w) import_log = (Return agent, import_log)
          ∧ collect_status w agent
              (import_log
               ++ [(INFO, "HIL Agent Run at " +:+ datetime_now_utc_isoformat w 0)])%list
            = (Raise e, l'))).
Proof.
  repeat apply conj.
  - intros self report l msg Hp. rewrite send_heartbeat_eval, Hp. reflexivity.
  - intros self l report l1 Hc. rewrite run_eval, Hc. eauto.
  - intros cfg url key rig bt Ho Hu Hk Hr Hb.
    assert (Hz : exit_status (fst (process w)) = 0).
    { apply exit_status_zero. by exists cfg, url, key, rig, bt. }
    assert (Hp : ∃ l', process w = (Return tt, l')).
    { rewrite process_eval, (RigAgent_init_ok w _ _ cfg url key rig Ho Hu Hk Hr).
      rewrite run_eval.
      match goal with |- context [collect_status w ?a ?l0] =>
        destruct (collect_status_returns w a l0 bt Hb)
          as (b & tn & net & sys & l' & _ & _ & _ & ->)
      end.
      eauto. }
    destruct Hp as (l' & Hp). exists l'. split; [exact Hp | exact Hz].
  - intros Hnz.
    destruct (open_json_load w (CONFIG_PATH w)) as [cfg|e] eqn:Ho; [|eauto].
    destruct (cfg_server_url cfg) as [url|] eqn:Hu; [|right; left; eauto].
    destruct (cfg_api_key cfg) as [key|] eqn:Hk; [|right; left; eauto].
    destruct (cfg_rig_id cfg) as [rig|] eqn:Hr; [|right; left; eauto 6].
    destruct (psutil_boot_time w) as [bt|e] eqn:Hb.
    + exfalso. apply Hnz. apply exit_status_zero. by exists cfg, url, key, rig, bt.
    + right; right.
      pose proof (RigAgent_init_ok w _ import_log cfg url key rig Ho Hu Hk Hr) as Hi.
      match type of Hi with _ = (Return ?a, _) =>
        destruct (collect_status_raises w a
                    (import_log
                     ++ [(INFO, "HIL Agent Run at "
                                +:+ datetime_now_utc_isoformat w 0)])%list
                    e Hb) as (l' & Hc)
      end.
      eauto.
Qed.

Lemma failed_heartbeat_is_not_fatal_witness :
  ∃ l',
    process
      (sample_world
         (Ok (sample_config (Some "http://x") (Some "k") (Some "r1") None))
         (Ok 0) idle_procs unreachable)
    = (Return tt, l')
    ∧ exit_status
        (fst (process
           (sample_world
              (Ok (sample_config (Some "http://x") (Some "k") (Some "r1") None))
              (Ok 0) idle_procs unreachable))) = 0.
Proof.
  apply (proj1 (proj2 (proj2 (failed_heartbeat_is_not_fatal
           (sample_world
              (Ok (sample_config (Some "http://x") (Some "k") (Some "r1") None))
              (Ok 0) idle_procs unreachable))))
           (sample_config (Some "http://x") (Some "k") (Some "r1") None)
           "http://x" "k" "r1" 0);
    reflexivity.
Defined.

(** The scenario of the unreachable collector, run from the start of
    the process. *)
Example unreachable_collector_run :
  process
    (sample_world
       (Ok (sample_config (Some "http://x") (Some "k") (Some "r1") None))
       (Ok 0) idle_procs unreachable)
  = (Return tt,
     [ (INFO, "Agent starting"); (DEBUG, "Debug info");
       (WARNING, "Warning message"); (ERROR, "Error occurred");
       (INFO, "HIL Agent Run at 2024-01-01T00:00:00+00:00");
       (ERROR, "Cannot connect to server at http://x") ]).
Proof. vm_compute. reflexivity. Qed.

(** The scenario of the idle rig: no [hil.exe] among the processes and
    a collector that answers 200. *)
Example idle_rig_run :
  ∃ report l,
    collect_status
      (sample_world
         (Ok (sample_config (Some "http://x") (Some "k") (Some "r1") None))
         (Ok 0) idle_procs http_ok)
      (sample_agent ∅) [] = (Return report, l)
    ∧ report !! "status" = Some (VStr "available")
    ∧ report !! "is_testing" = Some (VBool false)
    ∧ report !! "test_name" = Some VNone
    ∧ fst (process
        (sample_world
           (Ok (sample_config (Some "http://x") (Some "k") (Some "r1") None))
           (Ok 0) idle_procs http_ok)) = Return tt.
Proof.
  eexists _, _. split; [reflexivity|].
  repeat split; vm_compute; reflexivity.
Qed.

(** C10. A configuration that parses but lacks a required key makes
    [RigAgent.__init__] raise [KeyError] for the first absent key. The
    exception leaves the process unhandled: nothing is logged for it,
    [run] is never entered (the log holds the module's own records
    only), and the process does not end through [sys.exit]. *)
Theorem missing_required_key_is_unhandled w cfg :
  open_json_load w (CONFIG_PATH w) = Ok cfg →
  cfg_server_url cfg = None ∨ cfg_api_key cfg = None ∨ cfg_rig_id cfg = None →
  ∃ key,
    key ∈ ["server_url"; "api_key"; "rig_id"]
    ∧ RigAgent_init w (CONFIG_PATH w) import_log
      = (Raise (Exn KeyError ("'" +:+ key +:+ "'")), import_log)
    ∧ process w = (Raise (Exn KeyError ("'" +:+ key +:+ "'")), import_log)
    ∧ (∀ code, fst (process w) ≠ SysExit code)
    ∧ exit_status (fst (process w)) = 1.
Proof.
  intros Ho Hmiss.
  destruct (RigAgent_init_missing_key w (CONFIG_PATH w) import_log cfg Ho Hmiss)
    as (key & Hkey & Hi).
  exists key. rewrite process_eval, Hi. repeat split; try assumption.
  intros code. discriminate.
Qed.

Lemma missing_required_key_is_unhandled_witness :
  ∃ key,
    key ∈ ["server_url"; "api_key"; "rig_id"]
    ∧ RigAgent_init
        (sample_world (Ok (sample_config (Some "http://x") None (Some "r1") None))
           (Ok 0) idle_procs http_ok)
        "config.json" import_log
      = (Raise (Exn KeyError ("'" +:+ key +:+ "'")), import_log)
    ∧ process
        (sample_world (Ok (sample_config (Some "http://x") None (Some "r1") None))
           (Ok 0) idle_procs http_ok)
      = (Raise (Exn KeyError ("'" +:+ key +:+ "'")), import_log)
    ∧ (∀ code,
         fst (process
           (sample_world (Ok (sample_config (Some "http://x") None (Some "r1") None))
              (Ok 0) idle_procs http_ok)) ≠ SysExit code)
    ∧ exit_status
        (fst (process
           (sample_world (Ok (sample_config (Some "http://x") None (Some "r1") None))
              (Ok 0) idle_procs http_ok))) = 1.
Proof.
  apply (missing_required_key_is_unhandled
           (sample_world (Ok (sample_config (Some "http://x") None (Some "r1") None))
              (Ok 0) idle_procs http_ok)
           (sample_config (Some "http://x") None (Some "r1") None)).
  - reflexivity.
  - right. left. reflexivity.
Defined.

(** A missing configuration file, for comparison, goes the designed
    way: an error is logged and the process ends through
    [sys.exit(1)]. *)
Lemma missing_config_file_exits w e :
  open_json_load w (CONFIG_PATH w) = Err e →
  isinstance e FileNotFoundError = true →
  process w =
  (SysExit 1,
   (import_log ++ [(ERROR, "Config file not found at " +:+ CONFIG_PATH w)])%list).
Proof.
  intros Ho He. rewrite process_eval. unfold RigAgent_init. mred.
  rewrite load_config_eval, Ho, He. reflexivity.
Qed.

(** ** The status label *)

(** Below the metadata, the label follows the probe. *)
Lemma status_head_label self ts b tn :
  status_head self ts b tn !! "status"
  = Some (VStr (if b then "busy" else "available")).
Proof. reflexivity. Qed.

Lemma status_head_is_testing self ts b tn :
  status_head self ts b tn !! "is_testing" = Some (VBool b).
Proof. reflexivity. Qed.

(** A key that only the first five items hold, unless the metadata
    holds it too. *)
Lemma status_lookup_head self ts b tn (net sys : dict) os (k : string) :
  k ≠ "agent_version" → k ≠ "os" →
  metadata self !! k = None → sys !! k = None → net !! k = None →
  status self ts b tn net sys os !! k = status_head self ts b tn !! k.
Proof.
  intros Hv Ho Hm Hs Hn. rewrite status_lookup by assumption.
  rewrite lookup_union_r by exact Hm.
  rewrite lookup_union_r by exact Hs.
  by rewrite lookup_union_r by exact Hn.
Qed.

(** What [collect_status] returns is the display over what the probe
    returned. *)
Lemma collect_status_inv w self l report l' b tn :
  collect_status w self l = (Return report, l') →
  check_test_running w self l = (Return (b, tn), l) →
  ∃ net sys,
    (∀ k : string, k ∉ network_fields → net !! k = None)
    ∧ (∀ k : string, k ∉ snapshot_fields → sys !! k = None)
    ∧ report = status self (datetime_now_utc_isoformat w 1) b tn net sys
                 (platform_platform w).
Proof.
  intros Hc Hp.
  destruct (psutil_boot_time w) as [bt|e] eqn:Hb.
  - destruct (collect_status_returns w self l bt Hb)
      as (b' & tn' & net & sys & l2 & Hp' & Hnet & Hsys & Hc').
    rewrite Hp in Hp'. injection Hp' as <- <-.
    rewrite Hc in Hc'. injection Hc' as -> _.
    by exists net, sys.
  - destruct (collect_status_raises w self l e Hb) as (l2 & Hc').
    rewrite Hc in Hc'. discriminate.
Qed.

(** C4, as the code has it. In a composed report whose metadata holds
    no ["status"] key, the label is ["busy"] exactly when the probe
    found a test running and ["available"] exactly when it did not; and
    unless the metadata holds an ["is_testing"] key, the report's
    ["is_testing"] is the probe's result. *)
Theorem status_label_follows_probe w self l report l' b tn :
  collect_status w self l = (Return report, l') →
  check_test_running w self l = (Return (b, tn), l) →
  metadata self !! "status" = None →
  (report !! "status" = Some (VStr "busy") ↔ b = true)
  ∧ (report !! "status" = Some (VStr "available") ↔ b = false)
  ∧ (metadata self !! "is_testing" = None →
     report !! "is_testing" = Some (VBool b)).
Proof.
  intros Hc Hp Hm.
  destruct (collect_status_inv w self l report l' b tn Hc Hp)
    as (net & sys & Hnet & Hsys & ->).
  assert (Hlabel : status self (datetime_now_utc_isoformat w 1) b tn net sys
                     (platform_platform w) !! "status"
                   = Some (VStr (if b then "busy" else "available"))).
  { rewrite status_lookup_head; [apply status_head_label | discriminate..
      | exact Hm | apply Hsys | apply Hnet].
    - unfold snapshot_fields. rewrite !not_elem_of_cons, elem_of_nil.
      intuition discriminate.
    - unfold network_fields. rewrite !not_elem_of_cons, elem_of_nil.
      intuition discriminate. }
  rewrite Hlabel. repeat split.
  - destruct b; [reflexivity | discriminate].
  - intros ->. reflexivity.
  - destruct b; [discriminate | reflexivity].
  - intros ->. reflexivity.
  - intros Hi.
    rewrite status_lookup_head; [apply status_head_is_testing | discriminate..
      | exact Hi | apply Hsys | apply Hnet].
    + unfold snapshot_fields. rewrite !not_elem_of_cons, elem_of_nil.
      intuition discriminate.
    + unfold network_fields. rewrite !not_elem_of_cons, elem_of_nil.
      intuition discriminate.
Qed.

Lemma status_label_follows_probe_witness :
  ∃ report l',
    collect_status
      (sample_world (Err (Exn FileNotFoundError "config.json")) (Ok 0)
         busy_procs http_ok)
      (sample_agent ∅) [] = (Return report, l')
    ∧ (report !! "status" = Some (VStr "busy") ↔ true = true)
    ∧ (report !! "status" = Some (VStr "available") ↔ true = false)
    ∧ (metadata (sample_agent ∅) !! "is_testing" = None →
       report !! "is_testing" = Some (VBool true)).
Proof.
  eexists _, _. split; [reflexivity|].
  eapply (status_label_follows_probe
            (sample_world (Err (Exn FileNotFoundError "config.json")) (Ok 0)
               busy_procs http_ok)
            (sample_agent ∅) [] _ _ true (Some "hil.exe"));
    reflexivity.
Defined.

(** C4, as it is stated, fails: a ["status"] key of the metadata
    replaces the label. With [hil.exe] running and the metadata
    [{"status": "available"}], the probe reports a running test and the
    report says ["available"]. *)
Lemma status_label_overridden_by_metadata :
  ¬ (∀ w self l report l' b tn,
       collect_status w self l = (Return report, l') →
       check_test_running w self l = (Return (b, tn), l) →
       (report !! "status" = Some (VStr "busy") ↔ b = true)
       ∧ (report !! "status" = Some (VStr "available") ↔ b = false)).
Proof.
  intros H.
  assert (Hc : ∃ report l',
             collect_status
               (sample_world (Err (Exn FileNotFoundError "config.json")) (Ok 0)
                  busy_procs http_ok)
               (sample_agent {["status" := VStr "available"]}) []
             = (Return report, l')
             ∧ report !! "status" = Some (VStr "available")).
  { eexists _, _. split; [reflexivity | vm_compute; reflexivity]. }
  destruct Hc as (report & l' & Hc & Hst).
  destruct (H _ _ _ report l' true (Some "hil.exe") Hc eq_refl) as [_ [Hav _]].
  specialize (Hav Hst). discriminate.
Qed.

(** ** Gigabytes and hours *)

(** *** Rounding to the nearest integer, ties to even *)

Lemma round_half_even_near q :
  (Qabs (inject_Z (round_half_even q) - q) <= 1 # 2)%Q.
Proof.
  unfold round_half_even.
  pose proof (Qfloor_le q) as Hlo. pose proof (Qlt_floor q) as Hhi.
  rewrite inject_Z_plus in Hhi. change (inject_Z 1) with 1%Q in Hhi.
  apply Qabs_Qle_condition.
  destruct (q - inject_Z (Qfloor q) ?= 1 # 2)%Q eqn:Hc.
  - apply Qeq_alt in Hc.
    destruct (Z.even (Qfloor q));
      [|rewrite inject_Z_plus; change (inject_Z 1) with 1%Q]; lra.
  - apply Qlt_alt in Hc. lra.
  - apply Qgt_alt in Hc. rewrite inject_Z_plus.
    change (inject_Z 1) with 1%Q. lra.
Qed.

Lemma round_half_even_tie q :
  (q - inject_Z (Qfloor q) == 1 # 2)%Q → Z.even (round_half_even q) = true.
Proof.
  intros Ht. unfold round_half_even. apply Qeq_alt in Ht. rewrite Ht.
  destruct (Z.even (Qfloor q)) eqn:He; [exact He|].
  rewrite Z.even_add, He. reflexivity.
Qed.

Lemma round_half_even_nonneg q : (0 <= q)%Q → 0 <= round_half_even q.
Proof.
  intros Hq. assert (Hf : 0 <= Qfloor q).
  { change 0 with (Qfloor 0). by apply Qfloor_resp_le. }
  unfold round_half_even.
  destruct (q - inject_Z (Qfloor q) ?= 1 # 2)%Q; [destruct (Z.even _)|..]; lia.
Qed.

(** [round] keeps the sign of a finite float and rounds its magnitude,
    scaled by [10 ^ ndigits], to the nearest integer [n], ties to even;
    it returns the binary64 nearest to [n / 10 ^ ndigits]. *)
Lemma py_round_finite s m e nd :
  ∃ n : Z,
    0 <= n
    ∧ (Qabs (inject_Z n - inject_Z (Zpos m) * 2 ^ e * inject_Z (10 ^ Z.of_N nd)) <= 1 # 2)%Q
    ∧ py_round (S754_finite s m e) nd
      = SFdiv prec emax (signed_int s n) (signed_int false (10 ^ Z.of_N nd)).
Proof.
  eexists. split; [|split; [apply round_half_even_near | reflexivity]].
  apply round_half_even_nonneg.
  apply Qmult_le_0_compat; [apply Qmult_le_0_compat|].
  - discriminate.
  - apply Qpower_0_le. discriminate.
  - change 0%Q with (inject_Z 0). rewrite <- Zle_Qle. apply Z.pow_nonneg. lia.
Qed.

(** *** The division by [1024 ** 3] is exact below [2 ^ 53] *)

Lemma div_eucl_exact x : Z.div_eucl (x * 2 ^ 30) (2 ^ 30) = (x, 0).
Proof.
  pose proof (Z.div_mul x (2 ^ 30) ltac:(lia)) as Hd.
  pose proof (Z.mod_mul x (2 ^ 30) ltac:(lia)) as Hm.
  unfold Z.div, Z.modulo in Hd, Hm.
  destruct (Z.div_eucl (x * 2 ^ 30) (2 ^ 30)) as [q r]. congruence.
Qed.

Lemma digits2_pos_size p : digits2_pos p = Pos.size p.
Proof. induction p; simpl; congruence. Qed.

Lemma digits2_pos_bound p : Zpos p < 2 ^ 53 → Zpos (digits2_pos p) <= 53.
Proof.
  intros Hp. rewrite digits2_pos_size.
  pose proof (Pos.size_le p) as Hle.
  apply Pos2Z.pos_le_pos in Hle. rewrite Pos2Z.inj_pow in Hle.
  destruct (Z.le_gt_cases (Zpos (Pos.size p)) 53) as [H|H]; [exact H|].
  exfalso.
  assert (2 ^ 54 <= 2 ^ Zpos (Pos.size p)) by (apply Z.pow_le_mono_r; lia).
  lia.
Qed.

Lemma shl_spec a n : 0 <= n → Zpos (shl a n) = Zpos a * 2 ^ n.
Proof.
  intros Hn. destruct n as [|k|k]; simpl shl; [lia| |lia].
  rewrite shift_pos_correct. unfold Zpower_pos. rewrite <- Z.pow_pos_fold.
  unfold Z.pow_pos. lia.
Qed.

Lemma digits2_pos_shift k a :
  digits2_pos (shift_pos k a) = (digits2_pos a + k)%positive.
Proof.
  unfold shift_pos. induction k as [|k IH] using Pos.peano_ind.
  - simpl. lia.
  - rewrite Pos.iter_succ. simpl. rewrite IH. lia.
Qed.

Lemma digits2_pos_shl a n :
  0 <= n → Zpos (digits2_pos (shl a n)) = Zpos (digits2_pos a) + n.
Proof.
  intros Hn. destruct n as [|k|k]; simpl shl; [lia| |lia].
  rewrite digits2_pos_shift. lia.
Qed.

Lemma SFdiv_core_GiB a :
  Zpos (digits2_pos a) <= 53 →
  SFdiv_core_binary prec emax (Zpos a) 0 (2 ^ 30) 0
  = (Zpos (shl a (53 - Zpos (digits2_pos a)))~0, Zpos (digits2_pos a) - 84, loc_Exact).
Proof.
  intros Hd. unfold SFdiv_core_binary. cbv zeta.
  change (Zdigits2 (Z.pos a)) with (Zpos (digits2_pos a)).
  change (Zdigits2 (2 ^ 30)) with 31.
  set (d := Zpos (digits2_pos a)) in *.
  assert (Hd1 : 1 <= d) by (unfold d; lia).
  replace (Z.min _ _) with (d - 84)
    by (unfold fexp, emin, prec, emax; lia).
  replace (0 - 0 - (d - 84)) with (84 - d) by lia.
  destruct (84 - d) as [|s|s] eqn:Hs; [lia| |lia].
  rewrite <- Hs. rewrite Z.shiftl_mul_pow2 by lia.
  replace (Zpos a * 2 ^ (84 - d)) with (Zpos (shl a (53 - d))~0 * 2 ^ 30).
  2:{ rewrite Pos2Z.inj_xO, shl_spec by lia.
      replace (84 - d) with ((53 - d) + 1 + 30) by lia.
      rewrite !Z.pow_add_r by lia. lia. }
  rewrite div_eucl_exact. reflexivity.
Qed.

Lemma binary_round_aux_even p e :
  Zpos (digits2_pos p) = 53 → -1075 <= e <= 970 →
  binary_round_aux prec emax false (Zpos p~0) e loc_Exact
  = S754_finite false p (e + 1).
Proof.
  intros Hp He. unfold binary_round_aux, shr_fexp.
  change (Zdigits2 (Z.pos p~0)) with (Zpos (Pos.succ (digits2_pos p))).
  rewrite Pos2Z.inj_succ, Hp.
  replace (fexp prec emax (Z.succ 53 + e) - e) with 1
    by (unfold fexp, emin, prec, emax; lia).
  cbn [shr_record_of_loc shr iter_pos shr_1 loc_of_shr_record shr_m
       round_nearest_even].
  change (SpecFloat.iter_pos shr_1 1
            {| shr_m := Z.pos p~0; shr_r := false; shr_s := false |})
    with {| shr_m := Z.pos p; shr_r := false; shr_s := false |}.
  cbn [loc_of_shr_record shr_m round_nearest_even].
  change (Zdigits2 (Z.pos p)) with (Zpos (digits2_pos p)). rewrite Hp.
  replace (fexp prec emax (53 + (e + 1)) - (e + 1)) with 0
    by (unfold fexp, emin, prec, emax; lia).
  cbn [shr_record_of_loc shr shr_m].
  replace (e + 1 <=? emax - prec)%Z with true
    by (symmetry; apply Z.leb_le; unfold emax, prec; lia).
  reflexivity.
Qed.

Lemma int_truediv_GiB a :
  Zpos a < 2 ^ 53 →
  int_truediv (Zpos a) GiB
  = S754_finite false (shl a (53 - Zpos (digits2_pos a)))
      (Zpos (digits2_pos a) - 83).
Proof.
  intros Ha. pose proof (digits2_pos_bound a Ha) as Hd.
  unfold int_truediv, GiB. change (1024 ^ 3) with (2 ^ 30).
  change (signed_int false (2 ^ 30)) with (S754_finite false (Pos.pow 2 30) 0).
  unfold signed_int, SFdiv.
  change (Z.pos (2 ^ 30)) with (2 ^ 30).
  rewrite (SFdiv_core_GiB a Hd).
  change (xorb false false) with false.
  rewrite binary_round_aux_even.
  - f_equal. lia.
  - rewrite digits2_pos_shl by lia. lia.
  - lia.
Qed.

Lemma round_half_even_comp q r : (q == r)%Q → round_half_even q = round_half_even r.
Proof.
  intros H. unfold round_half_even.
  rewrite (Qfloor_comp q r H).
  assert (Hc : (q - inject_Z (Qfloor r) ?= 1 # 2)%Q = (r - inject_Z (Qfloor r) ?= 1 # 2)%Q).
  { apply Qcompare_comp; [rewrite H|]; reflexivity. }
  rewrite Hc. reflexivity.
Qed.

Lemma float_value_int_truediv_GiB bytes :
  0 <= bytes < 2 ^ 53 →
  (float_value (int_truediv bytes GiB) == inject_Z bytes / inject_Z GiB)%Q.
Proof.
  intros [Hlo Hhi]. destruct bytes as [|a|a]; [reflexivity| |lia].
  rewrite (int_truediv_GiB a Hhi). pose proof (digits2_pos_bound a Hhi) as Hd.
  unfold float_value. rewrite shl_spec by lia.
  set (d := Zpos (digits2_pos a)) in *.
  assert (Hd1 : 1 <= d) by (unfold d; lia).
  rewrite inject_Z_mult, Zpower_Qpower by lia.
  change (inject_Z 2) with 2%Q.
  replace (d - 83) with (- (53 - d) + - 30) by lia.
  rewrite Qpower_plus by discriminate.
  rewrite !Qpower_opp.
  change (inject_Z GiB) with (2 ^ 30)%Q.
  assert (Hnz : ¬ (2 ^ (53 - d) == 0)%Q) by (apply Qpower_not_0; discriminate).
  generalize dependent (2 ^ (53 - d))%Q. intros x Hnz.
  generalize (inject_Z (Z.pos a)). intros y.
  change (2 ^ (-30))%Q with (/ 2 ^ 30)%Q.
  field. exact Hnz.
Qed.

Lemma py_round_bytes bytes :
  0 <= bytes < 2 ^ 53 →
  py_round (int_truediv bytes GiB) 2
  = int_truediv (round_half_even (inject_Z (bytes * 100) / inject_Z GiB)) 100.
Proof.
  intros Hb. pose proof (float_value_int_truediv_GiB bytes Hb) as Hv.
  destruct Hb as [Hlo Hhi]. destruct bytes as [|a|a]; [reflexivity| |lia].
  rewrite (int_truediv_GiB a Hhi) in *.
  unfold py_round, int_truediv. change (10 ^ Z.of_N 2) with 100.
  f_equal. f_equal. apply round_half_even_comp.
  unfold float_value in Hv.
  set (P := inject_Z (Z.pos (shl a (53 - Z.pos (digits2_pos a))))) in *.
  set (E := (2 ^ (Z.pos (digits2_pos a) - 83))%Q) in *.
  assert (HX : (P * E == inject_Z (Z.pos a) / inject_Z GiB)%Q)
    by (rewrite <- Hv; ring).
  rewrite HX, inject_Z_mult. change (inject_Z GiB) with (2 ^ 30)%Q.
  field.
Qed.


(** *** The snapshot *)

(** The four derived fields of the display, by key. *)
Lemma snapshot_derived_fields cpu v0 v1 v2 d0 d1 up :
  snapshot cpu v0 v1 v2 d0 d1 up !! "memory_used_gb"
  = Some (VFloat (py_round (int_truediv (svmem_used v1) GiB) 2))
  ∧ snapshot cpu v0 v1 v2 d0 d1 up !! "memory_total_gb"
    = Some (VFloat (py_round (int_truediv (svmem_total v2) GiB) 2))
  ∧ snapshot cpu v0 v1 v2 d0 d1 up !! "disk_free_gb"
    = Some (VFloat (py_round (int_truediv (sdiskusage_free d1) GiB) 2))
  ∧ snapshot cpu v0 v1 v2 d0 d1 up !! "uptime_hours"
    = Some (VFloat (py_round
        (float_div (int_truediv up (10 ^ 6)) (float_of_int 3600)) 1)).
Proof.
  unfold snapshot, dict_display, setitem, total_seconds. simpl fold_left.
  repeat split;
    repeat (rewrite lookup_insert_ne by discriminate);
    apply lookup_insert_eq.
Qed.

(** C7. With every query answered, the snapshot holds each byte count
    divided by [1024 ** 3] and rounded to 2 decimals, and the uptime as
    [(now - boot time).total_seconds() / 3600] rounded to 1 decimal.
    For a byte count below [2 ^ 53] the division is exact, so the
    field is the binary64 nearest to [n / 100], with [n] the integer
    nearest to [bytes * 100 / 1024 ^ 3] (ties to even); rounding moves
    the scaled value by at most one half; and 1073741824 bytes give
    exactly [1.0]. *)
Theorem byte_metrics_in_gigabytes w l bt cpu v0 v1 v2 d0 d1 :
  psutil_boot_time w = Ok bt →
  psutil_cpu_percent w = Ok cpu →
  psutil_virtual_memory w 0 = Ok v0 →
  psutil_virtual_memory w 1 = Ok v1 →
  psutil_virtual_memory w 2 = Ok v2 →
  psutil_disk_usage w "C:\" 0 = Ok d0 →
  psutil_disk_usage w "C:\" 1 = Ok d1 →
  (∃ snap,
     collect_system_status w l = (Return snap, l)
     ∧ snap !! "memory_used_gb"
       = Some (VFloat (py_round (int_truediv (svmem_used v1) (1024 ^ 3)) 2))
     ∧ snap !! "memory_total_gb"
       = Some (VFloat (py_round (int_truediv (svmem_total v2) (1024 ^ 3)) 2))
     ∧ snap !! "disk_free_gb"
       = Some (VFloat (py_round (int_truediv (sdiskusage_free d1) (1024 ^ 3)) 2))
     ∧ snap !! "uptime_hours"
       = Some (VFloat (py_round
           (float_div (int_truediv (datetime_now w - bt) (10 ^ 6))
                      (float_of_int 3600)) 1)))
  ∧ (∀ bytes, 0 <= bytes < 2 ^ 53 →
       (float_value (int_truediv bytes (1024 ^ 3))
        == inject_Z bytes / inject_Z (1024 ^ 3))%Q
       ∧ py_round (int_truediv bytes (1024 ^ 3)) 2
         = int_truediv
             (round_half_even (inject_Z (bytes * 100) / inject_Z (1024 ^ 3)))
             100)
  ∧ (∀ q, (Qabs (inject_Z (round_half_even q) - q) <= 1 # 2)%Q)
  ∧ (∀ s m e nd,
       ∃ n : Z,
         0 <= n
         ∧ (Qabs (inject_Z n
                  - inject_Z (Zpos m) * 2 ^ e * inject_Z (10 ^ Z.of_N nd))
            <= 1 # 2)%Q
         ∧ py_round (S754_finite s m e) nd
           = SFdiv prec emax (signed_int s n)
               (signed_int false (10 ^ Z.of_N nd)))
  ∧ py_round (int_truediv 1073741824 (1024 ^ 3)) 2 = float_of_int 1.
Proof.
  intros Hb Hc H0 H1 H2 H3 H4. split; [|split; [|split; [|split]]].
  - exists (snapshot cpu v0 v1 v2 d0 d1 (datetime_now w - bt)).
    split; [by apply collect_system_status_all_ok|].
    apply snapshot_derived_fields.
  - intros bytes Hbytes. split.
    + by apply float_value_int_truediv_GiB.
    + by apply py_round_bytes.
  - apply round_half_even_near.
  - apply py_round_finite.
  - vm_compute. reflexivity.
Qed.

Lemma byte_metrics_in_gigabytes_witness :
  ∃ snap,
    collect_system_status
      (sample_world (Err (Exn FileNotFoundError "config.json")) (Ok 0)
         idle_procs http_ok) []
    = (Return snap, [])
    ∧ snap !! "memory_used_gb" = Some (VFloat (float_of_int 1))
    ∧ snap !! "memory_total_gb" = Some (VFloat (float_of_int 16))
    ∧ snap !! "disk_free_gb" = Some (VFloat (float_of_int 200))
    ∧ snap !! "uptime_hours" = Some (VFloat (int_truediv 2 10)).
Proof.
  apply (proj1 (byte_metrics_in_gigabytes
           (sample_world (Err (Exn FileNotFoundError "config.json")) (Ok 0)
              idle_procs http_ok) [] 0
           (float_of_int 12)
           {| svmem_total := 16 * GiB; svmem_used := 1073741824;
              svmem_percent := int_truediv 625 100 |}
           {| svmem_total := 16 * GiB; svmem_used := 1073741824;
              svmem_percent := int_truediv 625 100 |}
           {| svmem_total := 16 * GiB; svmem_used := 1073741824;
              svmem_percent := int_truediv 625 100 |}
           {| sdiskusage_free := 200 * GiB; sdiskusage_percent := float_of_int 60 |}
           {| sdiskusage_free := 200 * GiB; sdiskusage_percent := float_of_int 60 |}
           eq_refl eq_refl eq_refl eq_refl eq_refl eq_refl eq_refl)).
Defined.

(** Rounding as Python shows it: [round(2.675, 2)] is [2.67] (the
    binary64 next to 2.675 lies below the tie), [round(0.125, 2)] is
    [0.12] (a tie, to even), and 15 minutes of uptime are [0.2] hours. *)
Example py_round_samples :
  py_round (int_truediv 2675 1000) 2 = int_truediv 267 100
  ∧ py_round (int_truediv 125 1000) 2 = int_truediv 12 100
  ∧ py_round (float_div (total_seconds 900000000) (float_of_int 3600)) 1
    = int_truediv 2 10.
Proof. repeat split; vm_compute; reflexivity. Qed.

(** * More of the agent *)

(** ** The process probe, in full *)

(** The scan ends in one of two ways, and logs nothing. *)
Lemma check_test_running_loop_outcome names procs l :
  (check_test_running_loop names procs l = (Return (false, None), l)
   ∧ ∀ n, ProcInfo (Some n) ∈ procs → n ∉ names)
  ∨ (∃ m, check_test_running_loop names procs l = (Return (true, Some m), l)
          ∧ m ∈ names ∧ ProcInfo (Some m) ∈ procs).
Proof.
  induction procs as [|p rest IH].
  - left. split; [reflexivity|]. intros n Hn. by apply elem_of_nil in Hn.
  - rewrite check_test_running_loop_step.
    assert (Hskip : (∀ n, p ≠ ProcInfo (Some n) ∨ n ∉ names) →
      (check_test_running_loop names rest l = (Return (false, None), l)
       ∧ ∀ n, ProcInfo (Some n) ∈ p :: rest → n ∉ names)
      ∨ (∃ m, check_test_running_loop names rest l = (Return (true, Some m), l)
              ∧ m ∈ names ∧ ProcInfo (Some m) ∈ p :: rest)).
    { intros Hp. destruct IH as [[Heq Hno]|(m & Heq & Hm & Hin)].
      - left. split; [exact Heq|]. intros n Hn.
        apply elem_of_cons in Hn as [Hn|Hn]; [|by apply Hno].
        destruct (Hp n) as [Hne|Hnot]; [congruence | exact Hnot].
      - right. exists m. repeat split; try assumption.
        apply elem_of_cons. by right. }
    destruct p as [[n|]| |]; try (apply Hskip; intros; left; discriminate).
    destruct (name_in (Some n) names) eqn:Hin.
    + right. exists n. apply name_in_Some in Hin.
      repeat split; [exact Hin | apply elem_of_cons; by left].
    + apply Hskip. intros k. destruct (decide (k = n)) as [->|Hne].
      * right. intros Hk. apply name_in_Some in Hk. congruence.
      * left. congruence.
Qed.

(** X1. [check_test_running] always returns, logs nothing, and returns
    one of two shapes: [(False, None)], with no live process name in the
    configured list, or [(True, m)] with [m] an entry of the list and
    the name of a live process. A name comes with [True] and with
    [True] only. *)
Theorem test_activity_is_consistent w self l :
  (check_test_running w self l = (Return (false, None), l)
   ∧ ∀ n, ProcInfo (Some n) ∈ psutil_process_iter w →
          n ∉ default [] (cfg_test_process_names (config self)))
  ∨ (∃ m, check_test_running w self l = (Return (true, Some m), l)
          ∧ m ∈ default [] (cfg_test_process_names (config self))
          ∧ ProcInfo (Some m) ∈ psutil_process_iter w).
Proof. apply check_test_running_loop_outcome. Qed.

(** X2. A process that is gone, one that denies access and one whose
    name reads [None] leave the result of the scan as it is without
    them, wherever they stand in the table. *)
Theorem unreadable_processes_are_skipped names pre post l :
  check_test_running_loop names (pre ++ ProcGone :: post) l
  = check_test_running_loop names (pre ++ post) l
  ∧ check_test_running_loop names (pre ++ ProcDenied :: post) l
    = check_test_running_loop names (pre ++ post) l
  ∧ check_test_running_loop names (pre ++ ProcInfo None :: post) l
    = check_test_running_loop names (pre ++ post) l.
Proof.
  induction pre as [|p pre IH].
  - cbn [app]. rewrite !check_test_running_loop_step. by repeat split.
  - destruct IH as (IH1 & IH2 & IH3). cbn [app].
    rewrite !(check_test_running_loop_step names p).
    destruct p as [[n|]| |]; try (by repeat split).
    destruct (name_in (Some n) names); by repeat split.
Qed.

(** ** The network probe, in full *)

Lemma get_network_info_eval w l :
  get_network_info w l =
  match socket_gethostname w with
  | Ok h =>
      match socket_gethostbyname w h with
      | Ok ip =>
          (Return (dict_display [Item "hostname" (VStr h); Item "ip_address" (VStr ip)]), l)
      | Err e =>
          (Return (dict_display [Item "hostname" (VStr "unknown");
                                 Item "ip_address" (VStr "unknown")]),
           (l ++ [(ERROR, "Error getting network info" +:+ nl +:+ exn_str e)])%list)
      end
  | Err e =>
      (Return (dict_display [Item "hostname" (VStr "unknown");
                             Item "ip_address" (VStr "unknown")]),
       (l ++ [(ERROR, "Error getting network info" +:+ nl +:+ exn_str e)])%list)
  end.
Proof.
  unfold get_network_info.
  destruct (socket_gethostname w) as [h|e]; [|reflexivity].
  mred. destruct (socket_gethostbyname w h) as [ip|e]; reflexivity.
Qed.

Lemma network_display_eq a b :
  dict_display [Item "hostname" a; Item "ip_address" b]
  = {[ "hostname" := a; "ip_address" := b ]}.
Proof.
  unfold dict_display, setitem. simpl fold_left.
  rewrite insert_empty. apply insert_insert_ne. discriminate.
Qed.

(** X3. [get_network_info] never raises. With both lookups answered it
    returns the host name and the address and logs nothing. When either
    lookup fails it logs the exception and returns ["unknown"] for both
    keys: a host name already resolved is dropped with the address. *)
Theorem network_probe_degrades w l :
  (∀ h ip, socket_gethostname w = Ok h → socket_gethostbyname w h = Ok ip →
     get_network_info w l
     = (Return {[ "hostname" := VStr h; "ip_address" := VStr ip ]}, l))
  ∧ (∀ h e, socket_gethostname w = Ok h → socket_gethostbyname w h = Err e →
       get_network_info w l
       = (Return {[ "hostname" := VStr "unknown"; "ip_address" := VStr "unknown" ]},
          (l ++ [(ERROR, "Error getting network info" +:+ nl +:+ exn_str e)])%list))
  ∧ (∀ e, socket_gethostname w = Err e →
       get_network_info w l
       = (Return {[ "hostname" := VStr "unknown"; "ip_address" := VStr "unknown" ]},
          (l ++ [(ERROR, "Error getting network info" +:+ nl +:+ exn_str e)])%list)).
Proof.
  rewrite get_network_info_eval. repeat split.
  - intros h ip -> ->. by rewrite network_display_eq.
  - intros h e -> ->. by rewrite network_display_eq.
  - intros e ->. by rewrite network_display_eq.
Qed.

(** ** The snapshot, in full *)

Lemma snapshot_dom cpu v0 v1 v2 d0 d1 up :
  dom (snapshot cpu v0 v1 v2 d0 d1 up) = list_to_set snapshot_fields.
Proof.
  unfold snapshot, dict_display, setitem. simpl fold_left.
  rewrite !dom_insert_L, dom_empty_L. unfold snapshot_fields. simpl.
  apply set_eq. intros k. set_unfold. tauto.
Qed.

(** The snapshot holds all its keys or none, and the log only grows. *)
Lemma collect_system_status_shape w bt l :
  psutil_boot_time w = Ok bt →
  ∃ sys l',
    collect_system_status w l = (Return sys, l')
    ∧ l `prefix_of` l'
    ∧ (dom sys = ∅ ∨ dom sys = list_to_set snapshot_fields).
Proof.
  intros Hb. unfold collect_system_status. rewrite Hb.
  assert (Hfail : ∀ e : exn,
    ∃ sys l',
      (Return (∅ : dict),
       (l ++ [(ERROR, "Error collecting system status" +:+ nl +:+ exn_str e)])%list)
      = (Return sys, l')
      ∧ l `prefix_of` l'
      ∧ (dom sys = ∅ ∨ dom sys = list_to_set snapshot_fields)).
  { intros e. eexists _, _. split; [reflexivity|].
    split; [by apply prefix_app_r | left; apply dom_empty_L]. }
  destruct (psutil_cpu_percent w) as [cpu|e]; [|apply Hfail].
  destruct (psutil_virtual_memory w 0) as [v0|e]; [|apply Hfail].
  destruct (psutil_virtual_memory w 1) as [v1|e]; [|apply Hfail].
  destruct (psutil_virtual_memory w 2) as [v2|e]; [|apply Hfail].
  destruct (psutil_disk_usage w "C:\" 0) as [d0|e]; [|apply Hfail].
  destruct (psutil_disk_usage w "C:\" 1) as [d1|e]; [|apply Hfail].
  eexists _, _. split; [reflexivity|].
  split; [reflexivity | right; apply snapshot_dom].
Qed.

(** X4. With the boot time at hand, [collect_system_status] returns
    either the seven fields of the snapshot with nothing logged, when
    every query is answered, or the empty dict with one error record
    that names the exception of a failed query: one failed query leaves
    none of the fields, also those already sampled. *)
Theorem snapshot_is_all_or_nothing w bt l :
  psutil_boot_time w = Ok bt →
  (∃ cpu v0 v1 v2 d0 d1,
     psutil_cpu_percent w = Ok cpu
     ∧ psutil_virtual_memory w 0 = Ok v0
     ∧ psutil_virtual_memory w 1 = Ok v1
     ∧ psutil_virtual_memory w 2 = Ok v2
     ∧ psutil_disk_usage w "C:\" 0 = Ok d0
     ∧ psutil_disk_usage w "C:\" 1 = Ok d1
     ∧ ∃ snap, collect_system_status w l = (Return snap, l)
               ∧ dom snap = list_to_set snapshot_fields)
  ∨ (∃ e,
       (psutil_cpu_percent w = Err e
        ∨ (∃ n, (n < 3)%nat ∧ psutil_virtual_memory w n = Err e)
        ∨ (∃ n, (n < 2)%nat ∧ psutil_disk_usage w "C:\" n = Err e))
       ∧ collect_system_status w l
         = (Return ∅,
            (l ++ [(ERROR, "Error collecting system status" +:+ nl +:+ exn_str e)])%list)).
Proof.
  intros Hb. unfold collect_system_status. rewrite Hb.
  destruct (psutil_cpu_percent w) as [cpu|e] eqn:Hc.
  2:{ right. exists e. split; [by left | reflexivity]. }
  destruct (psutil_virtual_memory w 0) as [v0|e] eqn:H0.
  2:{ right. exists e. split; [right; left; exists 0%nat; split; [lia|done] | reflexivity]. }
  destruct (psutil_virtual_memory w 1) as [v1|e] eqn:H1.
  2:{ right. exists e. split; [right; left; exists 1%nat; split; [lia|done] | reflexivity]. }
  destruct (psutil_virtual_memory w 2) as [v2|e] eqn:H2.
  2:{ right. exists e. split; [right; left; exists 2%nat; split; [lia|done] | reflexivity]. }
  destruct (psutil_disk_usage w "C:\" 0) as [d0|e] eqn:H3.
  2:{ right. exists e. split; [right; right; exists 0%nat; split; [lia|done] | reflexivity]. }
  destruct (psutil_disk_usage w "C:\" 1) as [d1|e] eqn:H4.
  2:{ right. exists e. split; [right; right; exists 1%nat; split; [lia|done] | reflexivity]. }
  left. exists cpu, v0, v1, v2, d0, d1. repeat split.
  eexists. split; [reflexivity | apply snapshot_dom].
Qed.

Lemma snapshot_is_all_or_nothing_witness :
  (∃ cpu v0 v1 v2 d0 d1,
     psutil_cpu_percent (sample_rig idle_procs http_ok) = Ok cpu
     ∧ psutil_virtual_memory (sample_rig idle_procs http_ok) 0 = Ok v0
     ∧ psutil_virtual_memory (sample_rig idle_procs http_ok) 1 = Ok v1
     ∧ psutil_virtual_memory (sample_rig idle_procs http_ok) 2 = Ok v2
     ∧ psutil_disk_usage (sample_rig idle_procs http_ok) "C:\" 0 = Ok d0
     ∧ psutil_disk_usage (sample_rig idle_procs http_ok) "C:\" 1 = Ok d1
     ∧ ∃ snap,
         collect_system_status (sample_rig idle_procs http_ok) [] = (Return snap, [])
         ∧ dom snap = list_to_set snapshot_fields)
  ∨ (∃ e,
       (psutil_cpu_percent (sample_rig idle_procs http_ok) = Err e
        ∨ (∃ n, (n < 3)%nat
                ∧ psutil_virtual_memory (sample_rig idle_procs http_ok) n = Err e)
        ∨ (∃ n, (n < 2)%nat
                ∧ psutil_disk_usage (sample_rig idle_procs http_ok) "C:\" n = Err e))
       ∧ collect_system_status (sample_rig idle_procs http_ok) []
         = (Return ∅,
            ([] ++ [(ERROR, "Error collecting system status" +:+ nl +:+ exn_str e)])%list)).
Proof.
  apply (snapshot_is_all_or_nothing (sample_rig idle_procs http_ok) 0 [] eq_refl).
Defined.

(** ** The report, in full *)

Lemma collect_status_shape w self l bt :
  psutil_boot_time w = Ok bt →
  ∃ b tn net sys l1 l2,
    check_test_running w self l = (Return (b, tn), l)
    ∧ get_network_info w l = (Return net, l1)
    ∧ collect_system_status w l1 = (Return sys, l2)
    ∧ collect_status w self l =
      (Return (status self (datetime_now_utc_isoformat w 1) b tn net sys
                 (platform_platform w)), l2).
Proof.
  intros Hb.
  destruct (check_test_running_returns w self l) as (b & tn & Hc).
  destruct (get_network_info_returns w l) as (net & l1 & Hn & _).
  destruct (collect_system_status_returns w bt l1 Hb) as (sys & l2 & Hs & _).
  exists b, tn, net, sys, l1, l2. repeat split; try assumption.
  unfold collect_status. mred. rewrite Hc. cbv beta iota.
  rewrite Hn. cbv beta iota. rewrite Hs. reflexivity.
Qed.

Lemma collect_status_shape_inv w self l report l' :
  collect_status w self l = (Return report, l') →
  ∃ bt b tn net sys l1,
    psutil_boot_time w = Ok bt
    ∧ check_test_running w self l = (Return (b, tn), l)
    ∧ get_network_info w l = (Return net, l1)
    ∧ collect_system_status w l1 = (Return sys, l')
    ∧ report = status self (datetime_now_utc_isoformat w 1) b tn net sys
                 (platform_platform w).
Proof.
  intros Hc. destruct (psutil_boot_time w) as [bt|e] eqn:Hb.
  - destruct (collect_status_shape w self l bt Hb)
      as (b & tn & net & sys & l1 & l2 & Hp & Hn & Hs & Hc').
    rewrite Hc in Hc'. injection Hc' as -> ->.
    by exists bt, b, tn, net, sys, l1.
  - destruct (collect_status_raises w self l e Hb) as (l2 & Hc').
    rewrite Hc in Hc'. discriminate.
Qed.

Lemma network_dom w l net l1 :
  get_network_info w l = (Return net, l1) → dom net = list_to_set network_fields.
Proof.
  rewrite get_network_info_eval. intros H.
  assert (Hd : ∀ a b, dom (dict_display [Item "hostname" a; Item "ip_address" b])
                      = list_to_set network_fields).
  { intros a b. unfold dict_display, setitem. simpl fold_left.
    rewrite !dom_insert_L, dom_empty_L. unfold network_fields. simpl.
    apply set_eq. intros k. set_unfold. tauto. }
  destruct (socket_gethostname w) as [h|e];
    [destruct (socket_gethostbyname w h) as [ip|e]|];
    injection H as <- _; apply Hd.
Qed.

Lemma status_head_dom self ts b tn :
  dom (status_head self ts b tn) = list_to_set (identity_fields ++ status_fields).
Proof.
  unfold status_head, dict_display, setitem. simpl fold_left.
  rewrite !dom_insert_L, dom_empty_L. unfold identity_fields, status_fields.
  simpl. apply set_eq. intros k. set_unfold. tauto.
Qed.

Lemma status_dom self ts b tn (net sys : dict) os :
  dom (status self ts b tn net sys os)
  = {["os"]} ∪ ({["agent_version"]} ∪ (dom (metadata self) ∪ (dom sys ∪ (dom net
      ∪ list_to_set (identity_fields ++ status_fields))))).
Proof.
  rewrite status_unfold, !dom_insert_L, !dom_union_L, status_head_dom. reflexivity.
Qed.

Lemma snapshot_fields_early (k : string) :
  k ∈ snapshot_fields →
  k ≠ "agent_version" ∧ k ≠ "os" ∧ (k ∉ network_fields)
  ∧ (k ∉ (identity_fields ++ status_fields)%list).
Proof.
  unfold snapshot_fields, network_fields, identity_fields, status_fields.
  simpl. rewrite !elem_of_cons, !elem_of_nil.
  intros H. repeat split; intros H'; intuition congruence.
Qed.

(** X5. When a metric query fails, the report is composed all the
    same, and for each of the seven snapshot keys it holds what the
    metadata holds for that key: nothing, unless the metadata names the
    key. *)
Theorem failed_metric_drops_all_metrics w self l bt e :
  psutil_boot_time w = Ok bt →
  (psutil_cpu_percent w = Err e
   ∨ (∃ n, (n < 3)%nat ∧ psutil_virtual_memory w n = Err e)
   ∨ (∃ n, (n < 2)%nat ∧ psutil_disk_usage w "C:\" n = Err e)) →
  ∃ report l',
    collect_status w self l = (Return report, l')
    ∧ ∀ k : string, k ∈ snapshot_fields → report !! k = metadata self !! k.
Proof.
  intros Hb Hfail.
  destruct (collect_status_shape w self l bt Hb)
    as (b & tn & net & sys & l1 & l2 & Hp & Hn & Hs & Hc).
  exists (status self (datetime_now_utc_isoformat w 1) b tn net sys
            (platform_platform w)), l2.
  split; [exact Hc|]. intros k Hk.
  destruct (collect_system_status_metric_failure w bt l1 Hb) as (e' & Hs').
  { destruct Hfail as [H|[H|H]]; [left|right; left|right; right]; eauto. }
  rewrite Hs in Hs'. injection Hs' as -> _.
  destruct (snapshot_fields_early k Hk) as (Hv & Ho & Hnet & Hhead).
  rewrite status_lookup by assumption.
  destruct (metadata self !! k) as [v|] eqn:Hm.
  - by apply lookup_union_Some_l.
  - rewrite lookup_union_r by exact Hm. rewrite lookup_union_r by apply lookup_empty.
    apply lookup_union_None. split.
    + apply not_elem_of_dom. rewrite (network_dom w l net l1 Hn).
      by rewrite elem_of_list_to_set.
    + apply not_elem_of_dom. rewrite status_head_dom.
      by rewrite elem_of_list_to_set.
Qed.

Lemma failed_metric_drops_all_metrics_witness :
  ∃ report l',
    collect_status
      (with_disk_usage (sample_rig idle_procs http_ok) no_C_volume)
      (sample_agent {["uptime_hours" := VStr "n/a"]}) []
    = (Return report, l')
    ∧ ∀ k : string, k ∈ snapshot_fields →
        report !! k
        = metadata (sample_agent {["uptime_hours" := VStr "n/a"]}) !! k.
Proof.
  apply (failed_metric_drops_all_metrics
           (with_disk_usage (sample_rig idle_procs http_ok) no_C_volume)
           (sample_agent {["uptime_hours" := VStr "n/a"]}) [] 0
           (Exn FileNotFoundError "No such file or directory: C:") eq_refl).
  right. right. exists 0%nat. split; [lia | reflexivity].
Defined.

(** X6. A composed report holds the nine fixed keys (identity, status,
    network, [agent_version], [os]), the keys of the metadata, and
    either all seven snapshot keys or none beyond those: it has no
    other key. *)
Theorem report_keys w self l report l' :
  collect_status w self l = (Return report, l') →
  dom report = list_to_set fixed_fields ∪ dom (metadata self)
  ∨ dom report
    = list_to_set fixed_fields ∪ list_to_set snapshot_fields ∪ dom (metadata self).
Proof.
  intros Hc.
  destruct (collect_status_shape_inv w self l report l' Hc)
    as (bt & b & tn & net & sys & l1 & Hb & Hp & Hn & Hs & ->).
  rewrite status_dom, (network_dom w l net l1 Hn).
  destruct (collect_system_status_shape w bt l1 Hb)
    as (sys' & l2 & Hs' & _ & Hd).
  rewrite Hs in Hs'. injection Hs' as <- _.
  destruct Hd as [Hd|Hd]; rewrite Hd.
  - left. unfold fixed_fields. rewrite !list_to_set_app_L.
    simpl. apply set_eq. intros k. set_unfold. tauto.
  - right. unfold fixed_fields. rewrite !list_to_set_app_L.
    simpl. apply set_eq. intros k. set_unfold. tauto.
Qed.

Lemma report_keys_witness :
  ∃ report l',
    collect_status (sample_rig idle_procs http_ok)
      (sample_agent {["location" := VStr "lab-3"]}) [] = (Return report, l')
    ∧ (dom report
       = list_to_set fixed_fields
         ∪ dom (metadata (sample_agent {["location" := VStr "lab-3"]}))
       ∨ dom report
         = list_to_set fixed_fields ∪ list_to_set snapshot_fields
           ∪ dom (metadata (sample_agent {["location" := VStr "lab-3"]}))).
Proof.
  eexists _, _. split; [reflexivity|].
  eapply (report_keys (sample_rig idle_procs http_ok)
            (sample_agent {["location" := VStr "lab-3"]}) []).
  reflexivity.
Defined.

(** X7. Every entry of the metadata is in the report under its key,
    whatever the probes delivered, unless the key is ["agent_version"]
    or ["os"]. *)
Theorem metadata_entries_reach_the_report
    self ts b tn (net sys : dict) os (k : string) (v : value) :
  metadata self !! k = Some v →
  k ≠ "agent_version" → k ≠ "os" →
  status self ts b tn net sys os !! k = Some v.
Proof.
  intros Hm Hv Ho. rewrite status_lookup by assumption.
  by apply lookup_union_Some_l.
Qed.

Lemma metadata_entries_reach_the_report_witness :
  status (sample_agent {["location" := VStr "lab-3"]})
    "2024-01-01T00:00:00+00:00" false None
    {["hostname" := VStr "rig-01"; "ip_address" := VStr "10.0.0.7"]} ∅
    "Windows-10" !! "location" = Some (VStr "lab-3").
Proof.
  apply metadata_entries_reach_the_report; [reflexivity | discriminate..].
Defined.

(** X8. In a composed report whose metadata names neither
    ["is_testing"] nor ["test_name"], the two fields agree: either
    [is_testing] is false and [test_name] is [None], or [is_testing] is
    true and [test_name] is a configured name that a live process
    carries. *)
Theorem test_name_follows_is_testing w self l report l' :
  collect_status w self l = (Return report, l') →
  metadata self !! "is_testing" = None →
  metadata self !! "test_name" = None →
  (report !! "is_testing" = Some (VBool false) ∧ report !! "test_name" = Some VNone)
  ∨ (∃ m, report !! "is_testing" = Some (VBool true)
          ∧ report !! "test_name" = Some (VStr m)
          ∧ m ∈ default [] (cfg_test_process_names (config self))
          ∧ ProcInfo (Some m) ∈ psutil_process_iter w).
Proof.
  intros Hc Hi Ht.
  destruct (collect_status_shape_inv w self l report l' Hc)
    as (bt & b & tn & net & sys & l1 & Hb & Hp & Hn & Hs & ->).
  assert (Hnet : ∀ k : string, k ∉ network_fields → net !! k = None).
  { intros k Hk. apply not_elem_of_dom. rewrite (network_dom w l net l1 Hn).
    by rewrite elem_of_list_to_set. }
  assert (Hsys : ∀ k : string, k ∉ snapshot_fields → sys !! k = None).
  { destruct (collect_system_status_returns w bt l1 Hb) as (sys' & l2 & Hs' & H).
    rewrite Hs in Hs'. by injection Hs' as <- _. }
  assert (Hf1 : (("is_testing" : string) ∉ network_fields)
                ∧ (("is_testing" : string) ∉ snapshot_fields)
                ∧ (("test_name" : string) ∉ network_fields)
                ∧ (("test_name" : string) ∉ snapshot_fields)).
  { unfold network_fields, snapshot_fields.
    rewrite !elem_of_cons, !elem_of_nil. intuition discriminate. }
  destruct Hf1 as (Ha & Hb' & Hc' & Hd').
  rewrite !status_lookup_head by (try discriminate; auto).
  destruct (check_test_running_loop_outcome (default [] (cfg_test_process_names (config self)))
              (psutil_process_iter w) l) as [[Heq _]|(m & Heq & Hm & Hin)];
    unfold check_test_running in Hp; rewrite Hp in Heq; injection Heq as -> ->.
  - left. split; reflexivity.
  - right. exists m. repeat split; assumption.
Qed.

Lemma test_name_follows_is_testing_witness :
  ∃ report l',
    collect_status (sample_rig busy_procs http_ok) (sample_agent ∅) []
    = (Return report, l')
    ∧ ((report !! "is_testing" = Some (VBool false)
        ∧ report !! "test_name" = Some VNone)
       ∨ (∃ m, report !! "is_testing" = Some (VBool true)
               ∧ report !! "test_name" = Some (VStr m)
               ∧ m ∈ default [] (cfg_test_process_names (config (sample_agent ∅)))
               ∧ ProcInfo (Some m) ∈ psutil_process_iter (sample_rig busy_procs http_ok))).
Proof.
  eexists _, _. split; [reflexivity|].
  eapply (test_name_follows_is_testing (sample_rig busy_procs http_ok)
            (sample_agent ∅) []);
    reflexivity.
Defined.

(** ** One run, in full *)

Lemma collect_status_outcome w self l :
  (∃ report l', collect_status w self l = (Return report, l'))
  ∨ (∃ e l', collect_status w self l = (Raise e, l')).
Proof.
  destruct (psutil_boot_time w) as [bt|e] eqn:Hb.
  - left. destruct (collect_status_returns w self l bt Hb)
      as (b & tn & net & sys & l' & _ & _ & _ & Hc). eauto.
  - right. destruct (collect_status_raises w self l e Hb) as (l' & Hc). eauto.
Qed.

Lemma run_outcome w self l :
  fst (run w self l) = Return tt ∨ fst (run w self l) = SysExit 1.
Proof.
  rewrite run_eval.
  destruct (collect_status_outcome w self
              (l ++ [(INFO, "HIL Agent Run at " +:+ datetime_now_utc_isoformat w 0)])%list)
    as [(report & l' & ->)|(e & l' & ->)]; [by left | by right].
Qed.

(** X9. [run] never lets an exception out. It ends in one of two ways:
    it returns, after sending the report it composed; or, when the
    boot-time query failed, it logs that exception as its last record
    and leaves through [sys.exit(1)]. *)
Theorem run_ends_in_two_ways w self l :
  (∃ bt report l1,
     psutil_boot_time w = Ok bt
     ∧ collect_status w self
         (l ++ [(INFO, "HIL Agent Run at " +:+ datetime_now_utc_isoformat w 0)])%list
       = (Return report, l1)
     ∧ run w self l = (Return tt, snd (send_heartbeat w self report l1)))
  ∨ (∃ e l1,
       psutil_boot_time w = Err e
       ∧ run w self l
         = (SysExit 1,
            (l1 ++ [(ERROR, "Error in agent run" +:+ nl +:+ exn_str e)])%list)).
Proof.
  rewrite run_eval. destruct (psutil_boot_time w) as [bt|e] eqn:Hb.
  - left.
    destruct (collect_status_returns w self
                (l ++ [(INFO, "HIL Agent Run at " +:+ datetime_now_utc_isoformat w 0)])%list
                bt Hb) as (b & tn & net & sys & l1 & _ & _ & _ & Hc).
    rewrite Hc. eauto 6.
  - right.
    destruct (collect_status_raises w self
                (l ++ [(INFO, "HIL Agent Run at " +:+ datetime_now_utc_isoformat w 0)])%list
                e Hb) as (l1 & Hc).
    rewrite Hc. eauto.
Qed.

(** X10. After a composed report, [run] returns with one more record,
    and that record tells whether the heartbeat arrived: it is the
    success record of [send_heartbeat] exactly when the collector
    answered the request with status 200, and an error record
    otherwise. *)
Theorem last_record_tells_delivery w self l report l1 :
  collect_status w self
    (l ++ [(INFO, "HIL Agent Run at " +:+ datetime_now_utc_isoformat w 0)])%list
  = (Return report, l1) →
  ∃ entry,
    run w self l = (Return tt, (l1 ++ [entry])%list)
    ∧ (entry = (INFO, "Heartbeat sent successfully for " +:+ rig_id self)
       ↔ ∃ r, requests_post w (heartbeat_request self report) = Ok r
              ∧ status_code r = 200)
    ∧ (entry = (INFO, "Heartbeat sent successfully for " +:+ rig_id self)
       ∨ fst entry = ERROR).
Proof.
  intros Hc. rewrite run_eval, Hc, send_heartbeat_eval.
  destruct (requests_post w (heartbeat_request self report)) as [r|e].
  - destruct (bool_decide (status_code r = 200)) eqn:H200.
    + eexists. split; [reflexivity|]. split; [|by left]. split; [|done].
      intros _. exists r. split; [done|]. by apply bool_decide_eq_true in H200.
    + eexists. split; [reflexivity|]. split; [|by right]. split; [discriminate|].
      intros (r' & [= <-] & Hr). apply bool_decide_eq_false in H200. contradiction.
  - destruct (isinstance e requests_ConnectionError);
      [|destruct (isinstance e requests_Timeout)];
      (eexists; split; [reflexivity|]; split; [|by right]; split; [discriminate|]);
      intros (r & Hr & _); discriminate.
Qed.

Lemma last_record_tells_delivery_witness :
  ∃ report l1 entry,
    collect_status (sample_rig idle_procs unreachable) (sample_agent ∅)
      ([] ++ [(INFO, "HIL Agent Run at "
                     +:+ datetime_now_utc_isoformat (sample_rig idle_procs unreachable) 0)])%list
    = (Return report, l1)
    ∧ run (sample_rig idle_procs unreachable) (sample_agent ∅) []
      = (Return tt, (l1 ++ [entry])%list)
    ∧ (entry = (INFO, "Heartbeat sent successfully for " +:+ rig_id (sample_agent ∅))
       ↔ ∃ r, requests_post (sample_rig idle_procs unreachable)
                (heartbeat_request (sample_agent ∅) report) = Ok r
              ∧ status_code r = 200)
    ∧ (entry = (INFO, "Heartbeat sent successfully for " +:+ rig_id (sample_agent ∅))
       ∨ fst entry = ERROR).
Proof.
  eexists _, _.
  assert (Hc : collect_status (sample_rig idle_procs unreachable) (sample_agent ∅)
                 ([] ++ [(INFO, "HIL Agent Run at "
                                +:+ datetime_now_utc_isoformat
                                      (sample_rig idle_procs unreachable) 0)])%list
               = (Return _, _)) by reflexivity.
  destruct (last_record_tells_delivery _ _ _ _ _ Hc) as (entry & Hr & Hiff & Hlv).
  exists entry. repeat split; try assumption; apply Hiff.
Defined.

(** ** The process, in full *)

Lemma exit_status_0_or_1 w :
  exit_status (fst (process w)) = 0 ∨ exit_status (fst (process w)) = 1.
Proof.
  rewrite process_eval.
  destruct (open_json_load w (CONFIG_PATH w)) as [cfg|e] eqn:Ho.
  2:{ destruct (RigAgent_init_load_failure w (CONFIG_PATH w) import_log e Ho)
        as (o & l' & -> & Hst & _).
      right. destruct o; simpl in *; congruence. }
  destruct (cfg_server_url cfg) as [url|] eqn:Hu.
  2:{ destruct (RigAgent_init_missing_key w (CONFIG_PATH w) import_log cfg Ho)
        as (k & _ & ->); [tauto|]. by right. }
  destruct (cfg_api_key cfg) as [key|] eqn:Hk.
  2:{ destruct (RigAgent_init_missing_key w (CONFIG_PATH w) import_log cfg Ho)
        as (k & _ & ->); [tauto|]. by right. }
  destruct (cfg_rig_id cfg) as [rig|] eqn:Hr.
  2:{ destruct (RigAgent_init_missing_key w (CONFIG_PATH w) import_log cfg Ho)
        as (k & _ & ->); [tauto|]. by right. }
  rewrite (RigAgent_init_ok w _ _ cfg url key rig Ho Hu Hk Hr).
  match goal with |- context [run w ?a ?l0] =>
    destruct (run_outcome w a l0) as [H|H]
  end.
  - left. destruct (run w _ _) as [o l']. simpl in H. by subst o.
  - right. destruct (run w _ _) as [o l']. simpl in H. by subst o.
Qed.

(** X11. The exit status is 0 or 1, and it does not depend on the
    collector: with any other answers to the POST, all else equal, the
    process ends with the same status. *)
Theorem exit_status_ignores_the_collector w answer :
  exit_status (fst (process (with_post w answer)))
  = exit_status (fst (process w))
  ∧ (exit_status (fst (process w)) = 0 ∨ exit_status (fst (process w)) = 1).
Proof.
  split; [|apply exit_status_0_or_1].
  pose proof (exit_status_zero w) as Hz.
  pose proof (exit_status_zero (with_post w answer)) as Hz'.
  simpl in Hz'.
  destruct (exit_status_0_or_1 w) as [H|H],
           (exit_status_0_or_1 (with_post w answer)) as [H'|H'];
    rewrite H, H'; try reflexivity; exfalso.
  - apply Hz in H. apply Hz' in H. lia.
  - apply Hz' in H'. apply Hz in H'. lia.
Qed.

(** *** The log only grows *)

Lemma get_network_info_log w l : l `prefix_of` snd (get_network_info w l).
Proof.
  rewrite get_network_info_eval.
  destruct (socket_gethostname w) as [h|e];
    [destruct (socket_gethostbyname w h) as [ip|e]|]; simpl;
    [reflexivity | apply prefix_app_r; reflexivity..].
Qed.

Lemma collect_system_status_log w l :
  l `prefix_of` snd (collect_system_status w l).
Proof.
  destruct (psutil_boot_time w) as [bt|e] eqn:Hb.
  - destruct (collect_system_status_shape w bt l Hb) as (sys & l' & -> & Hl & _).
    exact Hl.
  - rewrite (collect_system_status_boot_failure w e l Hb). reflexivity.
Qed.

Lemma collect_status_log w self l : l `prefix_of` snd (collect_status w self l).
Proof.
  destruct (check_test_running_returns w self l) as (b & tn & Hc).
  pose proof (get_network_info_log w l) as Hn.
  destruct (get_network_info_returns w l) as (net & l1 & Hn' & _).
  rewrite Hn' in Hn. simpl in Hn.
  pose proof (collect_system_status_log w l1) as Hs.
  unfold collect_status. mred. rewrite Hc. cbv beta iota.
  rewrite Hn'. cbv beta iota.
  destruct (collect_system_status w l1) as [[sys|e|c] l2]; simpl in *;
    by etrans.
Qed.

Lemma send_heartbeat_log w self report l :
  l `prefix_of` snd (send_heartbeat w self report l).
Proof.
  rewrite send_heartbeat_eval.
  destruct (requests_post w (heartbeat_request self report)) as [r|e].
  - destruct (bool_decide _); by apply prefix_app_r.
  - destruct (isinstance e requests_ConnectionError);
      [|destruct (isinstance e requests_Timeout)]; by apply prefix_app_r.
Qed.

Lemma run_log w self l : l `prefix_of` snd (run w self l).
Proof.
  rewrite run_eval.
  pose proof (collect_status_log w self
    (l ++ [(INFO, "HIL Agent Run at " +:+ datetime_now_utc_isoformat w 0)])%list) as Hc.
  destruct (collect_status w self _) as [[report|e|c] l1]; simpl in *.
  - pose proof (send_heartbeat_log w self report l1) as Hs.
    etrans; [|exact Hs]. etrans; [|exact Hc]. by apply prefix_app_r.
  - apply prefix_app_r. etrans; [|exact Hc]. by apply prefix_app_r.
  - etrans; [|exact Hc]. by apply prefix_app_r.
Qed.

Lemma RigAgent_init_log w path l : l `prefix_of` snd (RigAgent_init w path l).
Proof.
  unfold RigAgent_init. mred. rewrite load_config_eval.
  destruct (open_json_load w path) as [cfg|e].
  - cbv beta iota.
    destruct (cfg_server_url cfg); [|reflexivity].
    destruct (cfg_api_key cfg); [|reflexivity].
    destruct (cfg_rig_id cfg); reflexivity.
  - destruct (isinstance e FileNotFoundError);
      [|destruct (isinstance e JSONDecodeError)]; simpl;
      [by apply prefix_app_r.. | reflexivity].
Qed.

(** X12. Whatever happens later, the log of a process starts with the
    four records the module writes when it is imported, the last of
    them at the error level: no method removes or rewrites a record. *)
Theorem every_run_logs_the_import_records w :
  ∃ rest,
    snd (process w)
    = ([ (INFO, "Agent starting"); (DEBUG, "Debug info");
         (WARNING, "Warning message"); (ERROR, "Error occurred") ] ++ rest)%list.
Proof.
  change [ (INFO, "Agent starting"); (DEBUG, "Debug info");
           (WARNING, "Warning message"); (ERROR, "Error occurred") ]
    with import_log.
  change (import_log `prefix_of` snd (process w)).
  rewrite process_eval.
  pose proof (RigAgent_init_log w (CONFIG_PATH w) import_log) as Hi.
  destruct (RigAgent_init w (CONFIG_PATH w) import_log) as [[agent|e|c] l1];
    simpl in *; try exact Hi.
  etrans; [exact Hi | apply run_log].
Qed.

(** *** Configuration errors *)

(** X13. A configuration file that cannot be opened or decoded for
    another reason than the two [load_config] names (a file without
    read permission, say) ends the process by that exception, with
    nothing logged for it. *)
Theorem unreadable_config_is_unhandled w e :
  open_json_load w (CONFIG_PATH w) = Err e →
  isinstance e FileNotFoundError = false →
  isinstance e JSONDecodeError = false →
  process w = (Raise e, import_log).
Proof.
  intros Ho Hf Hj. rewrite process_eval. unfold RigAgent_init. mred.
  rewrite load_config_eval, Ho, Hf, Hj. reflexivity.
Qed.

Lemma unreadable_config_is_unhandled_witness :
  process
    (sample_world (Err (Exn PermissionError "Permission denied: config.json"))
       (Ok 0) idle_procs http_ok)
  = (Raise (Exn PermissionError "Permission denied: config.json"), import_log).
Proof.
  apply (unreadable_config_is_unhandled
           (sample_world (Err (Exn PermissionError "Permission denied: config.json"))
              (Ok 0) idle_procs http_ok)
           (Exn PermissionError "Permission denied: config.json"));
    reflexivity.
Defined.

(** X14. A missing configuration file and a file that is not JSON each
    end the process through [sys.exit(1)], with one error record of
    their own after the import records and before any run. *)
Theorem missing_or_invalid_config_exits w e :
  open_json_load w (CONFIG_PATH w) = Err e →
  (isinstance e FileNotFoundError = true →
   process w =
   (SysExit 1,
    (import_log ++ [(ERROR, "Config file not found at " +:+ CONFIG_PATH w)])%list))
  ∧ (isinstance e FileNotFoundError = false →
     isinstance e JSONDecodeError = true →
     process w =
     (SysExit 1,
      (import_log
       ++ [(ERROR, "Invalid JSON in config file" +:+ nl +:+ exn_str e)])%list)).
Proof.
  intros Ho. rewrite process_eval. unfold RigAgent_init. mred.
  rewrite load_config_eval, Ho. split.
  - intros ->. reflexivity.
  - intros -> ->. reflexivity.
Qed.

Lemma missing_or_invalid_config_exits_witness :
  process
    (sample_world (Err (Exn JSONDecodeError "Expecting value: line 1 column 1"))
       (Ok 0) idle_procs http_ok)
  = (SysExit 1,
     (import_log
      ++ [(ERROR, "Invalid JSON in config file" +:+ nl
                  +:+ "Expecting value: line 1 column 1")])%list).
Proof.
  apply (proj2 (missing_or_invalid_config_exits
           (sample_world (Err (Exn JSONDecodeError "Expecting value: line 1 column 1"))
              (Ok 0) idle_procs http_ok)
           (Exn JSONDecodeError "Expecting value: line 1 column 1") eq_refl));
    reflexivity.
Defined.

(** *** Building the agent *)

(** X15. When [RigAgent.__init__] returns, it has logged nothing, the
    configuration is the one read from the path, the three required
    keys are present and are the agent's fields, and the metadata is
    the configured one, or empty when the key is absent. *)
Theorem agent_is_built_from_the_required_keys w path l agent l' :
  RigAgent_init w path l = (Return agent, l') →
  l' = l
  ∧ open_json_load w path = Ok (config agent)
  ∧ cfg_server_url (config agent) = Some (server_url agent)
  ∧ cfg_api_key (config agent) = Some (api_key agent)
  ∧ cfg_rig_id (config agent) = Some (rig_id agent)
  ∧ metadata agent = default ∅ (cfg_metadata (config agent)).
Proof.
  unfold RigAgent_init. mred. rewrite load_config_eval.
  destruct (open_json_load w path) as [cfg|e].
  - cbv beta iota.
    destruct (cfg_server_url cfg) as [url|] eqn:Hu; [|discriminate].
    destruct (cfg_api_key cfg) as [key|] eqn:Hk; [|discriminate].
    destruct (cfg_rig_id cfg) as [rig|] eqn:Hr; [|discriminate].
    intros [= <- <-]. simpl. by repeat split.
  - destruct (isinstance e FileNotFoundError);
      [|destruct (isinstance e JSONDecodeError)]; discriminate.
Qed.

Lemma agent_is_built_from_the_required_keys_witness :
  ∃ agent,
    RigAgent_init (sample_rig idle_procs http_ok) "config.json" []
    = (Return agent, [])
    ∧ open_json_load (sample_rig idle_procs http_ok) "config.json" = Ok (config agent)
    ∧ cfg_server_url (config agent) = Some (server_url agent)
    ∧ cfg_api_key (config agent) = Some (api_key agent)
    ∧ cfg_rig_id (config agent) = Some (rig_id agent)
    ∧ metadata agent = default ∅ (cfg_metadata (config agent)).
Proof.
  eexists. split; [reflexivity|].
  eapply (agent_is_built_from_the_required_keys
            (sample_rig idle_procs http_ok) "config.json" [] _ []).
  reflexivity.
Defined.

(** ** Sending, once more *)

(** X16. A timeout while connecting is logged as a connection failure,
    not as a timeout: in [requests] it is a [ConnectionError] too, and
    that clause comes first. *)
Theorem connect_timeout_is_logged_as_connection_failure w self report l msg :
  requests_post w (heartbeat_request self report)
  = Err (Exn requests_ConnectTimeout msg) →
  send_heartbeat w self report l
  = (Return false,
     (l ++ [(ERROR, "Cannot connect to server at " +:+ server_url self)])%list).
Proof. intros Hp. rewrite send_heartbeat_eval, Hp. reflexivity. Qed.

Lemma connect_timeout_is_logged_as_connection_failure_witness :
  send_heartbeat
    (sample_rig idle_procs (Err (Exn requests_ConnectTimeout "connect timed out")))
    (sample_agent ∅) ∅ []
  = (Return false, [(ERROR, "Cannot connect to server at http://x")]).
Proof.
  apply (connect_timeout_is_logged_as_connection_failure
           (sample_rig idle_procs (Err (Exn requests_ConnectTimeout "connect timed out")))
           (sample_agent ∅) ∅ [] "connect timed out").
  reflexivity.
Defined.
